(** * Smart pesticide sprinkler: the decision pipeline of [main.py]

    A shallow embedding of the server's decision logic (temporal
    stabilizer, environmental gate, motor run, [/process] handler and the
    single-slot frame queues) together with the remote node's reaction
    ([pi_client.py]), and the properties of the specification checked
    against it.

    Modelling conventions.
    - Python floats are modelled by rationals ([Q]): every finite float is
      a rational and the comparisons of the source are exact on them; the
      arithmetic of the moving average is exact rational arithmetic.
    - Python ints are [Z], strings are [string], [None]-or-float globals are
      [option Q], dictionaries with string keys are [gmap string _].
    - A JSON request body is a [gmap string Q]: an object whose values are
      numbers, as both clients send it.  A key may be absent.
    - Comparisons that raise in Python on [None] raise here as well
      ([Py.Exc]), so that the absence of an exception is a statement that
      is proved rather than built in.
    - The clock ([time.time()], [datetime.now()]) is an input of the
      functions that read it; [print] is not modelled. *)

From Stdlib Require Import QArith ZArith String Ascii List Bool Lia.
From stdpp Require Import gmap strings list pretty.

Local Open Scope string_scope.

(** ** Python semantics used by the source *)

Module Py.

Inductive exn : Type := TypeError | KeyError.

(** Result of evaluating a Python expression that may raise. *)
Inductive Exc (A : Type) : Type :=
| Ok (a : A)
| Raise (e : exn).
Arguments Ok {A} a.
Arguments Raise {A} e.

#[global] Instance Exc_ret : MRet Exc := fun A a => Ok a.
#[global] Instance Exc_bind : MBind Exc := fun A B f m =>
  match m with
  | Ok a => f a
  | Raise e => Raise e
  end.

(** [a and b] on booleans: [b] is looked at only when [a] is true. *)
Definition and_ (a b : Exc bool) : Exc bool :=
  x ← a; if (x : bool) then b else mret false.

Infix "&&&" := and_ (at level 40, left associativity) : stdpp_scope.

(** [v is not None]. *)
Definition is_not_None (v : option Q) : Exc bool :=
  mret (match v with Some _ => true | None => false end).

(** [x < y] on two floats. *)
Definition Qltb (x y : Q) : bool := negb (Qle_bool y x).

(** [v < limit] where [v] may be [None]: Python 3 raises [TypeError]
    when a [NoneType] is ordered against a float. *)
Definition lt (v : option Q) (limit : Q) : Exc bool :=
  match v with
  | Some x => mret (Qltb x limit)
  | None => Raise TypeError
  end.

(** [s.split(" ")[0]]: the characters before the first space (the whole
    string when it has none, the empty string when it starts with one). *)
Fixpoint split_first (s : string) : string :=
  match s with
  | EmptyString => EmptyString
  | String c r =>
      if Ascii.eqb c " "%char then EmptyString else String c (split_first r)
  end.

(** [c.upper()] on an ASCII character. *)
Definition upper_ascii (c : ascii) : ascii :=
  let n := nat_of_ascii c in
  if (97 <=? n)%nat && (n <=? 122)%nat then ascii_of_nat (n - 32) else c.

(** [s.upper()], for ASCII strings. *)
Fixpoint upper (s : string) : string :=
  match s with
  | EmptyString => EmptyString
  | String c r => String (upper_ascii c) (upper r)
  end.

(** [collections.deque(maxlen=n).append(x)]: append on the right; when
    the deque is full its leftmost element is discarded. *)
Definition deque_append {A} (maxlen : nat) (x : A) (d : list A) : list A :=
  let d' := (d ++ [x])%list in
  if (maxlen <? length d')%nat then tail d' else d'.

(** [max(iterable, key=key)] on a non-empty iterable whose first element
    is [best]: the first element with the largest key wins. *)
Fixpoint max_by {A} (key : A -> nat) (best : A) (l : list A) : A :=
  match l with
  | [] => best
  | x :: l' => max_by key (if (key best <? key x)%nat then x else best) l'
  end.

(** [list(enumerate(l))]. *)
Definition enumerate {A} (l : list A) : list (nat * A) :=
  combine (seq 0 (length l)) l.

(** Iteration order of [set(l)].  CPython leaves it unspecified (it
    depends on string hashes); the model visits each element once, in the
    order of [l] with the earlier copies of an element dropped.  No
    property below depends on this order. *)
Definition set_iter (l : list string) : list string :=
  List.nodup string_dec l.

(** [k in d] and [d[k]] on a dictionary with string keys. *)
Definition contains {V} (d : gmap string V) (k : string) : bool :=
  match d !! k with Some _ => true | None => false end.

Definition getitem {V} (d : gmap string V) (k : string) : Exc V :=
  match d !! k with Some v => Ok v | None => Raise KeyError end.

End Py.
Import Py.

(** ** Configuration constants of [main.py] *)

Inductive SeverityClass : Type := healthy | high | low | medium.

Definition severity_classes : list string := ["healthy"; "high"; "low"; "medium"].

(** The index [int(np.argmax(severity_preds))] of a class, and
    [severity_classes[class_idx]]. *)
Definition class_idx (c : SeverityClass) : nat :=
  match c with
  | healthy => 0
  | high => 1
  | low => 2
  | medium => 3
  end.

Definition class_name (c : SeverityClass) : string :=
  nth (class_idx c) severity_classes EmptyString.

Definition PLANT_DETECTION_THRESHOLD : Q := 99 # 100.
Definition MIN_CONFIDENCE : Q := 35.

Definition spray_durations : gmap string Z :=
  {[ "low" := 2%Z; "medium" := 3%Z; "high" := 5%Z ]}.

Definition MOISTURE_LIMIT : Q := 40.
Definition HUMIDITY_LIMIT : Q := 70.
Definition TEMP_LIMIT : Q := 30.

Definition HISTORY_SIZE : nat := 20.
Definition SMOOTHING_ALPHA : Q := 1 # 10.
Definition HYSTERESIS : Z := 5.

Definition NO_PLANT : string := "No Plant Detected".

Definition color : Type := (Z * Z * Z)%type.
Definition RED : color := (0, 0, 255)%Z.
Definition GREEN : color := (0, 255, 0)%Z.

(** ** Global state of the server

    The module-level variables of [main.py], grouped by the component
    that writes them.  [motor_started_at], [motor_run_for] and
    [saved_frame] are never read or written after their initialisation and
    are left out. *)

Record LogEntry : Type := mkLogEntry {
  time : string;
  message : string;
  type : string
}.

Record Sensors : Type := mkSensors {
  latest_moisture : Q;
  latest_temperature : option Q;
  latest_humidity : option Q
}.

Record Stabilizer : Type := mkStabilizer {
  prediction_history : list (string * Q);
  plant_currently_visible : bool;
  frames_without_plant : Z
}.

Record Motor : Type := mkMotor {
  motor_running : bool;
  spray_in_progress : bool;
  spray_started_at : Q;
  spray_lasts_for : Z;
  freeze_active : bool;
  manual_spray_prompt : string
}.

Record Command : Type := mkCommand {
  current_motor_command : string;
  command_duration : Z
}.

(** The dictionary [latest_plant]; its two keys are always present. *)
Record Plant : Type := mkPlant {
  label : string;
  confidence : Q
}.

Record Globals : Type := mkGlobals {
  sensors : Sensors;
  stabilizer : Stabilizer;
  motor : Motor;
  command : Command;
  latest_plant : Plant;
  force_spray_now : bool;
  activity_log : list LogEntry
}.

Definition set_sensors (x : Sensors) (g : Globals) : Globals :=
  mkGlobals x (stabilizer g) (motor g) (command g) (latest_plant g)
            (force_spray_now g) (activity_log g).
Definition set_stabilizer (x : Stabilizer) (g : Globals) : Globals :=
  mkGlobals (sensors g) x (motor g) (command g) (latest_plant g)
            (force_spray_now g) (activity_log g).
Definition set_motor (x : Motor) (g : Globals) : Globals :=
  mkGlobals (sensors g) (stabilizer g) x (command g) (latest_plant g)
            (force_spray_now g) (activity_log g).
Definition set_command (x : Command) (g : Globals) : Globals :=
  mkGlobals (sensors g) (stabilizer g) (motor g) x (latest_plant g)
            (force_spray_now g) (activity_log g).
Definition set_latest_plant (x : Plant) (g : Globals) : Globals :=
  mkGlobals (sensors g) (stabilizer g) (motor g) (command g) x
            (force_spray_now g) (activity_log g).
Definition set_force_spray_now (x : bool) (g : Globals) : Globals :=
  mkGlobals (sensors g) (stabilizer g) (motor g) (command g) (latest_plant g)
            x (activity_log g).
Definition set_activity_log (x : list LogEntry) (g : Globals) : Globals :=
  mkGlobals (sensors g) (stabilizer g) (motor g) (command g) (latest_plant g)
            (force_spray_now g) x.

(** The values the module assigns at import time. *)
Definition initial_globals : Globals := {|
  sensors := mkSensors 0 None None;
  stabilizer := mkStabilizer [] false 0;
  motor := mkMotor false false 0 0 false EmptyString;
  command := mkCommand "STOP" 0;
  latest_plant := mkPlant NO_PLANT 0;
  force_spray_now := false;
  activity_log := []
|}.

(** ** [log_event]

    [ts] is the formatted clock reading; the log is a [deque(maxlen=50)]. *)
Definition log_event (ts : string) (msg : string) (level : string)
    (g : Globals) : Globals :=
  set_activity_log (deque_append 50 (mkLogEntry ts msg level) (activity_log g)) g.

(** ** Temporal stabilizer: [get_stable_prediction] *)

(** One round of the smoothing loop, at index [i] of the history. *)
Definition smooth_step (smoothed : Q) (entry : nat * (string * Q)) : Q :=
  let '(i, (_, conf)) := entry in
  if (i =? 0)%nat then conf
  else (SMOOTHING_ALPHA * conf + (1 - SMOOTHING_ALPHA) * smoothed)%Q.

(** The loop [for i, (_, conf) in enumerate(prediction_history)]. *)
Definition smoothed_confidence (history : list (string * Q)) : Q :=
  fold_left smooth_step (enumerate history) 0%Q.

Definition valid_labels (history : list (string * Q)) : list string :=
  map fst (List.filter (fun e => negb (String.eqb (fst e) NO_PLANT)) history).

(** [max(set(valid_labels), key=valid_labels.count)], or the sentinel when
    there is no valid label. *)
Definition most_common (history : list (string * Q)) : string :=
  let valid := valid_labels history in
  match set_iter valid with
  | [] => NO_PLANT
  | first :: others => max_by (count_occ string_dec valid) first others
  end.

Definition get_stable_prediction (st : Stabilizer)
    : (string * color * Q) * Stabilizer :=
  match prediction_history st with
  | [] => ((NO_PLANT, RED, 0%Q), st)
  | _ :: _ =>
      let smoothed := smoothed_confidence (prediction_history st) in
      let most := most_common (prediction_history st) in
      if Qle_bool MIN_CONFIDENCE smoothed then
        ((most, GREEN, smoothed),
         mkStabilizer (prediction_history st) true 0)
      else
        let n := (frames_without_plant st + 1)%Z in
        if plant_currently_visible st && (n <? HYSTERESIS)%Z then
          ((most, GREEN, smoothed),
           mkStabilizer (prediction_history st) (plant_currently_visible st) n)
        else
          ((NO_PLANT, RED, smoothed),
           mkStabilizer (prediction_history st) false 0)
  end.

(** [prediction_history.append(c)] followed by [get_stable_prediction()],
    as one iteration of [process_frames_loop] does. *)
Definition stabilize (c : string * Q) (st : Stabilizer)
    : (string * color * Q) * Stabilizer :=
  get_stable_prediction
    (mkStabilizer (deque_append HISTORY_SIZE c (prediction_history st))
                  (plant_currently_visible st) (frames_without_plant st)).

(** ** Actuation: [run_motor_spray]

    The function runs in a thread of its own and blocks in
    [time.sleep(duration)].  It is split at the sleep: [run_motor_spray_begin]
    is the code before it (and yields the local variable [duration], or
    [None] when the function returns at once), [run_motor_spray_end] the
    code after it. *)

Definition run_motor_spray_begin (severity_level : string) (now : Q)
    (ts : string) (g : Globals) : option (Z * Globals) :=
  match spray_durations !! severity_level with
  | None => None
  | Some duration =>
      let m := motor g in
      let g1 := set_motor (mkMotor true (spray_in_progress m) now duration
                                   (freeze_active m) (manual_spray_prompt m)) g in
      let msg := "Motor ON for " ++ pretty duration ++ "s — "
                 ++ upper severity_level ++ " severity" in
      Some (duration, log_event ts msg "success" g1)
  end.

Definition run_motor_spray_end (duration : Z) (ts : string) (g : Globals)
    : Globals :=
  let m := motor g in
  let g1 := set_motor (mkMotor false false (spray_started_at m)
                               (spray_lasts_for m) false EmptyString) g in
  log_event ts ("Motor OFF — finished " ++ pretty duration ++ "s spray") "info" g1.

(** ** Environmental gate, as written in [process_frames_loop] *)

Definition conditions_met (g : Globals) (detected_severity : string) : Exc bool :=
  mret (contains spray_durations detected_severity)
  &&& lt (Some (latest_moisture (sensors g))) MOISTURE_LIMIT
  &&& is_not_None (latest_humidity (sensors g))
  &&& lt (latest_humidity (sensors g)) HUMIDITY_LIMIT
  &&& is_not_None (latest_temperature (sensors g))
  &&& lt (latest_temperature (sensors g)) TEMP_LIMIT
  &&& mret (negb (motor_running (motor g))).

(** ** Flask routes *)

(** The JSON object returned by [/process]. *)
Record Response : Type := mkResponse {
  motor_command : string;
  duration : Z
}.

(** Environmental gate, as written in [handle_moisture_data]. *)
Definition all_conditions_ok (g : Globals) (plant_label : string) : Exc bool :=
  mret (contains spray_durations plant_label)
  &&& mret (negb (String.eqb plant_label NO_PLANT))
  &&& lt (Some (latest_moisture (sensors g))) MOISTURE_LIMIT
  &&& is_not_None (latest_humidity (sensors g))
  &&& lt (latest_humidity (sensors g)) HUMIDITY_LIMIT
  &&& is_not_None (latest_temperature (sensors g))
  &&& lt (latest_temperature (sensors g)) TEMP_LIMIT.

(** [POST /process] with JSON body [data]. *)
Definition handle_moisture_data (data : gmap string Q) (ts : string)
    (g : Globals) : Exc (Response * Globals) :=
  let sn := sensors g in
  let g := set_sensors (mkSensors (default 0%Q (data !! "moisture"))
                                  (latest_temperature sn) (latest_humidity sn)) g in
  let plant_label := split_first (label (latest_plant g)) in
  g ← (if force_spray_now g then
         let g := set_command (mkCommand "RUN" 3) g in
         let g := set_force_spray_now false g in
         mret (log_event ts "Manual override — Force spray for 3s" "warning" g)
       else
         ok ← all_conditions_ok g plant_label;
         if (ok : bool) then
           d ← getitem spray_durations plant_label;
           let g := set_command (mkCommand "RUN" d) g in
           mret (log_event ts ("Auto spray: " ++ plant_label ++ ", "
                               ++ pretty d ++ "s") "success" g)
         else
           mret (set_command (mkCommand "STOP" 0) g));
  mret (mkResponse (current_motor_command (command g))
                   (command_duration (command g)), g).

(** [POST /dht22] with JSON body [data]. *)
Definition handle_dht22_data (data : gmap string Q) (g : Globals) : Globals :=
  set_sensors (mkSensors (latest_moisture (sensors g))
                         (data !! "temperature") (data !! "humidity")) g.

(** [POST /force_spray]. *)
Definition trigger_force_spray (ts : string) (g : Globals) : Globals :=
  log_event ts "Force spray requested from dashboard" "warning"
            (set_force_spray_now true g).

(** ** The remote node: one round of [sensor_and_motor_loop]

    What [pi_client.py] does with a response: whether it switches the pump
    on, and for how long it then sleeps before switching it off. *)
Definition pi_motor_on (r : Response) : bool :=
  String.eqb (motor_command r) "RUN" && (0 <? duration r)%Z.

Definition pi_run_for (r : Response) : Z :=
  if pi_motor_on r then duration r else 0%Z.

(** ** Latest-value channel

    [raw_frame_queue] and [processed_frame_queue] are [deque(maxlen=1)].
    The producer calls [append]; the consumer of raw frames tests the deque
    for emptiness and calls [popleft] only when it holds an item. *)

Module Channel.

Definition put {A} (item : A) (q : list A) : list A := deque_append 1 item q.

(** [if not q: ... continue] followed by [q.popleft()]. *)
Definition try_take {A} (q : list A) : option A * list A :=
  match q with
  | [] => (None, [])
  | item :: rest => (Some item, rest)
  end.

(** [q[-1]] guarded by [if q], as the MJPEG generator reads it. *)
Definition peek {A} (q : list A) : option A := last q.

End Channel.

(** ** The processing loop and the threads around it *)

(** A thread started on [run_motor_spray]: either it has not yet run (it
    holds its argument), or it is blocked in [time.sleep] (it holds its
    local [duration]).  A thread that has returned is dropped. *)
Inductive SprayThread : Type :=
| Started (severity_level : string)
| Sleeping (duration : Z).

Section Pipeline.

Context {Frame : Type}.

(** The external classifiers and the [:.1f] float formatting.
    [binary_model] is [binary_model.predict(..)[0][0]]; [severity_model]
    gives the arg-max class and the largest score of
    [severity_model.predict(..)]. *)
Variable binary_model : Frame -> Q.
Variable severity_model : Frame -> SeverityClass * Q.
Variable format_1f : Q -> string.

(** The entry appended to [prediction_history] for a frame. *)
Definition classify (frame : Frame) : string * Q :=
  if Qltb PLANT_DETECTION_THRESHOLD (binary_model frame) then
    let '(cls, top) := severity_model frame in
    let confidence := (top * 100)%Q in
    (class_name cls ++ " (" ++ format_1f confidence ++ "%)", confidence)
  else (NO_PLANT, 0%Q).

Record System : Type := mkSystem {
  globals : Globals;
  raw_frame_queue : list Frame;
  processed_frame_queue : list (string * color * Q * Frame);
  spray_threads : list SprayThread
}.

Definition initial_system : System := mkSystem initial_globals [] [] [].

(** One iteration of the [while True] of [process_frames_loop].  The
    rendered image pushed to the output queue is represented by the frame
    it was drawn on. *)
Definition process_frames_iteration (s : System) : Exc System :=
  match Channel.try_take (raw_frame_queue s) with
  | (None, _) => mret s
  | (Some frame, rest) =>
      let g := globals s in
      let '((stable_label, label_color, stable_conf), st) :=
        stabilize (classify frame) (stabilizer g) in
      let g := set_stabilizer st g in
      let g := set_latest_plant (mkPlant stable_label stable_conf) g in
      let detected_severity := split_first stable_label in
      met ← conditions_met g detected_severity;
      mret (mkSystem g rest
              (Channel.put (stable_label, label_color, stable_conf, frame)
                           (processed_frame_queue s))
              (if (met : bool)
               then (spray_threads s ++ [Started detected_severity])%list
               else spray_threads s))
  end.

Definition with_globals (g : Globals) (s : System) : System :=
  mkSystem g (raw_frame_queue s) (processed_frame_queue s) (spray_threads s).

Definition with_threads (t : list SprayThread) (g : Globals) (s : System)
    : System :=
  mkSystem g (raw_frame_queue s) (processed_frame_queue s) t.

(** Interleaving semantics of the server: each step is one action of one
    of its threads (capture loop, processing loop, a spray thread up to
    or after its sleep, a request handler). *)
Inductive step : System -> System -> Prop :=
| step_capture s frame :
    step s (mkSystem (globals s) (Channel.put frame (raw_frame_queue s))
                     (processed_frame_queue s) (spray_threads s))
| step_process_frames s s' :
    process_frames_iteration s = Ok s' ->
    step s s'
| step_spray_begin s pre post severity_level now ts d g :
    spray_threads s = (pre ++ Started severity_level :: post)%list ->
    run_motor_spray_begin severity_level now ts (globals s) = Some (d, g) ->
    step s (with_threads (pre ++ Sleeping d :: post)%list g s)
| step_spray_return s pre post severity_level now ts :
    spray_threads s = (pre ++ Started severity_level :: post)%list ->
    run_motor_spray_begin severity_level now ts (globals s) = None ->
    step s (with_threads (pre ++ post)%list (globals s) s)
| step_spray_end s pre post d ts :
    spray_threads s = (pre ++ Sleeping d :: post)%list ->
    step s (with_threads (pre ++ post)%list
                         (run_motor_spray_end d ts (globals s)) s)
| step_process s data ts r g :
    handle_moisture_data data ts (globals s) = Ok (r, g) ->
    step s (with_globals g s)
| step_dht22 s data :
    step s (with_globals (handle_dht22_data data (globals s)) s)
| step_force_spray s ts :
    step s (with_globals (trigger_force_spray ts (globals s)) s).

Inductive reachable : System -> Prop :=
| reachable_init : reachable initial_system
| reachable_step s s' : reachable s -> step s s' -> reachable s'.

(** Number of motor runs in progress: threads between
    [motor_running = True] and [motor_running = False]. *)
Definition is_sleeping (t : SprayThread) : bool :=
  match t with Sleeping _ => true | Started _ => false end.

Definition active_runs (s : System) : nat :=
  length (List.filter is_sleeping (spray_threads s)).

End Pipeline.

Arguments System : clear implicits.

(** * Notions used in the statements *)

(** [v is not None and v < limit], as a boolean. *)
Definition below (v : option Q) (limit : Q) : bool :=
  match v with
  | Some x => Qltb x limit
  | None => false
  end.

(** The value of the gate of [/process]. *)
Definition remote_gate (g : Globals) (plant_label : string) : bool :=
  contains spray_durations plant_label
  && negb (String.eqb plant_label NO_PLANT)
  && Qltb (latest_moisture (sensors g)) MOISTURE_LIMIT
  && below (latest_humidity (sensors g)) HUMIDITY_LIMIT
  && below (latest_temperature (sensors g)) TEMP_LIMIT.

(** The value of the gate of the processing loop. *)
Definition local_gate (g : Globals) (detected_severity : string) : bool :=
  contains spray_durations detected_severity
  && Qltb (latest_moisture (sensors g)) MOISTURE_LIMIT
  && below (latest_humidity (sensors g)) HUMIDITY_LIMIT
  && below (latest_temperature (sensors g)) TEMP_LIMIT
  && negb (motor_running (motor g)).

(** The sensor readings once [/process] has stored the posted moisture. *)
Definition polled (data : gmap string Q) (g : Globals) : Globals :=
  set_sensors (mkSensors (default 0%Q (data !! "moisture"))
                         (latest_temperature (sensors g))
                         (latest_humidity (sensors g))) g.

(** The answer of the branch that evaluates the gate. *)
Definition gate_response (g : Globals) : Response :=
  let plant_label := split_first (label (latest_plant g)) in
  if remote_gate g plant_label
  then mkResponse "RUN" (default 0%Z (spray_durations !! plant_label))
  else mkResponse "STOP" 0.

(** A state in which a spray for severity "high" is in progress: humidity
    50 and temperature 22 have been posted, the stabilizer reports
    "high (90.0%)" and [run_motor_spray] has set [motor_running]. *)
Definition spraying_globals : Globals :=
  let g := handle_dht22_data {[ "temperature" := 22%Q; "humidity" := 50%Q ]}
                             initial_globals in
  let g := set_latest_plant (mkPlant "high (90.0%)" 90) g in
  match run_motor_spray_begin "high" 0 "12:00:00" g with
  | Some (_, g') => g'
  | None => g
  end.

(** A system that holds a frame of a diseased plant while the DHT22 sensor
    has not reported yet. *)
Definition unit_system_no_dht : System unit :=
  mkSystem (set_latest_plant (mkPlant "high (90.0%)" 90) initial_globals)
           [tt] [] [].

(** A state in which the stabilizer reports a healthy plant and the
    sensors would allow a spray. *)
Definition healthy_globals : Globals :=
  set_latest_plant (mkPlant "healthy (88.0%)" 88)
    (handle_dht22_data {[ "temperature" := 22%Q; "humidity" := 50%Q ]}
                       initial_globals).

(** The scenario of the specification: moisture 35, humidity 50,
    temperature 22, motor idle. *)
Definition dry_cool_globals : Globals :=
  polled {[ "moisture" := 35%Q ]}
    (handle_dht22_data {[ "temperature" := 22%Q; "humidity" := 50%Q ]}
                       initial_globals).

Definition initial_stabilizer : Stabilizer := stabilizer initial_globals.

(** The state of the stabilizer after the classifications [cs] have been
    fed to it one by one. *)
Definition feed_all (cs : list (string * Q)) (st : Stabilizer) : Stabilizer :=
  fold_left (fun st c => snd (stabilize c st)) cs st.

(** The smoothed confidence reported by an output of the stabilizer. *)
Definition smoothed_of (out : (string * color * Q) * Stabilizer) : Q :=
  snd (fst out).

Definition label_of (out : (string * color * Q) * Stabilizer) : string :=
  fst (fst (fst out)).

(** The smoothed confidence emitted for [c] after [cs] have been consumed
    since start-up. *)
Definition emitted (cs : list (string * Q)) (c : string * Q) : Q :=
  smoothed_of (stabilize c (feed_all cs initial_stabilizer)).

(** The part of a history that survives the next [append]. *)
Definition retained (w : list (string * Q)) : list (string * Q) :=
  if (length w <? HISTORY_SIZE)%nat then w else tail w.

(** The outputs (with the state each one leaves) for the classifications
    [cs] fed one by one from state [st]. *)
Fixpoint stabilizer_trace (cs : list (string * Q)) (st : Stabilizer)
    : list ((string * color * Q) * Stabilizer) :=
  match cs with
  | [] => []
  | c :: cs' => let r := stabilize c st in r :: stabilizer_trace cs' (snd r)
  end.

(** An evaluation whose smoothed confidence is below [MIN_CONFIDENCE]. *)
Definition below_threshold (r : (string * color * Q) * Stabilizer) : Prop :=
  Qle_bool MIN_CONFIDENCE (smoothed_of r) = false.

(** An evaluation that reports the majority label of the history, with
    the plant still considered visible. *)
Definition reports_majority (r : (string * color * Q) * Stabilizer) : Prop :=
  label_of r = most_common (prediction_history (snd r))
  /\ plant_currently_visible (snd r) = true.

(** An evaluation that reports that there is no plant and resets the
    visibility flag and the counter. *)
Definition reports_no_plant (r : (string * color * Q) * Stabilizer) : Prop :=
  label_of r = NO_PLANT
  /\ plant_currently_visible (snd r) = false
  /\ frames_without_plant (snd r) = 0%Z.

(** A faint detection (confidence 36) followed by frames without a plant. *)
Definition faint_detection : string * Q := ("low (36.0%)", 36%Q).
Definition missed_frames (n : nat) : list (string * Q) := repeat (NO_PLANT, 0%Q) n.

(** A frame without a plant followed by two frames classified "high" with
    confidence 34. *)
Definition drifting_run : list (string * Q) :=
  [(NO_PLANT, 0%Q); ("high (34.0%)", 34%Q); ("high (34.0%)", 34%Q)].

(** Opens a run of [n] steps from the initial state: leaves the [n]
    steps to be given, first step first. *)
Ltac run_from_init n :=
  lazymatch n with
  | O => apply reachable_init
  | S ?k => eapply reachable_step; [run_from_init k|]
  end.

(** A camera that always shows a plant classified "high" with score 0.9. *)
Definition sick_plant_binary (_ : unit) : Q := 1.
Definition sick_plant_severity (_ : unit) : SeverityClass * Q := (high, 9 # 10).
Definition sick_plant_format (_ : Q) : string := "90.0".

(** Schedules in which the processing loop starts a spray thread only
    when every spray thread started earlier has already set
    [motor_running] (none is still between [t.start()] and the
    assignment). *)
Section PromptSchedules.

Context {Frame : Type}.
Variable binary_model : Frame -> Q.
Variable severity_model : Frame -> SeverityClass * Q.
Variable format_1f : Q -> string.

Definition no_pending (s : System Frame) : Prop :=
  forallb is_sleeping (spray_threads s) = true.

Inductive prompt_reachable : System Frame -> Prop :=
| prompt_init : prompt_reachable initial_system
| prompt_step s s' :
    prompt_reachable s ->
    step binary_model severity_model format_1f s s' ->
    ((length (spray_threads s) < length (spray_threads s'))%nat -> no_pending s) ->
    prompt_reachable s'.

(** The spray threads are consistent with the flag: no thread, or one
    that has not run yet, while [motor_running] is false; exactly one,
    asleep, while it is true. *)
Definition flag_tracks_run (s : System Frame) : Prop :=
  (motor_running (motor (globals s)) = false
   /\ (spray_threads s = [] \/ exists sev, spray_threads s = [Started sev]))
  \/ (motor_running (motor (globals s)) = true
      /\ exists d, spray_threads s = [Sleeping d]).

End PromptSchedules.

(** * Further code of the repository *)

(** ** [GET /status] and [GET /logs] *)

(** The JSON object returned by [/status]; its keys are prefixed, since
    [confidence] and [motor] already name globals. *)
Record Status : Type := mkStatus {
  status_plant : string;
  status_confidence : Q;
  status_moisture : Q;
  status_temperature : option Q;
  status_humidity : option Q;
  status_motor : string
}.

Definition get_status (g : Globals) : Status := {|
  status_plant := label (latest_plant g);
  status_confidence := confidence (latest_plant g);
  status_moisture := latest_moisture (sensors g);
  status_temperature := latest_temperature (sensors g);
  status_humidity := latest_humidity (sensors g);
  status_motor := if motor_running (motor g) then "ON" else "OFF"
|}.

Definition get_logs (g : Globals) : list LogEntry := activity_log g.

(** ** [draw_targeting_box]: the geometry

    The drawing calls are external; what is modelled is the box the
    function returns, the centre of the crosshair and the start points of
    the dashes along the horizontal and vertical edges.  [//] is floor
    division, as [Z.div] is. *)

Definition draw_targeting_box (h w crop_size : Z) : Z * Z * Z * Z :=
  let x1 := ((w - crop_size) / 2)%Z in
  let y1 := ((h - crop_size) / 2)%Z in
  let x2 := (x1 + crop_size)%Z in
  let y2 := (y1 + crop_size)%Z in
  (x1, y1, x2, y2).

Definition crosshair_center (h w : Z) : Z * Z := ((w / 2)%Z, (h / 2)%Z).

(** [list(range(start, stop, step))] for a positive [step]. *)
Fixpoint range_from (fuel : nat) (start stop step : Z) : list Z :=
  match fuel with
  | O => []
  | S k =>
      if (start <? stop)%Z
      then start :: range_from k (start + step)%Z stop step
      else []
  end.

Definition py_range (start stop step : Z) : list Z :=
  range_from (Z.to_nat (stop - start)) start stop step.

Definition dash_gap : Z := 20.

(** The dashes drawn along an edge from [a] to [b]: one from [i] to
    [i + dash_gap] for each [i] in [range(a + dash_gap, b, dash_gap * 2)]. *)
Definition edge_dashes (a b : Z) : list (Z * Z) :=
  map (fun i => (i, (i + dash_gap)%Z))
      (py_range (a + dash_gap)%Z b (dash_gap * 2)%Z).

Definition CROP_SIZE : Z := 300.

(** The centre crop that [process_frames_loop] feeds to the models. *)
Definition crop_region (h w : Z) : Z * Z * Z * Z :=
  let x1 := ((w - CROP_SIZE) / 2)%Z in
  let y1 := ((h - CROP_SIZE) / 2)%Z in
  let x2 := (x1 + CROP_SIZE)%Z in
  let y2 := (y1 + CROP_SIZE)%Z in
  (x1, y1, x2, y2).

(** ** [pi_client.py] *)

(** [max(a, b)] and [min(a, b)] on floats: the first argument is kept
    unless the second is strictly larger (smaller). *)
Definition py_max (a b : Q) : Q := if Qltb a b then b else a.
Definition py_min (a b : Q) : Q := if Qltb b a then b else a.

(** What the pump relay is told to do, and for how long the loop sleeps. *)
Inductive PumpAction : Type :=
| MotorOn
| MotorOff
| Sleep (seconds : Z).

Section Clients.

(** [round(x, 1)]: rounding of a float to one decimal.  It is left
    abstract; nothing below depends on how it rounds. *)
Variable round1 : Q -> Q.

(** [read_soil_moisture]: the value stored in [current_moisture] for the
    raw ADC reading [raw_value]. *)
Definition read_soil_moisture (raw_value : Z) : Q :=
  let moisture_pct := round1 (100 - (inject_Z raw_value / 26000 * 100))%Q in
  py_max 0 (py_min 100 moisture_pct).

(** One round of [sensor_and_motor_loop].  [post] is the HTTP request:
    it yields the decoded answer, or [None] when [requests.post] or
    [response.json()] raises. *)
Definition sensor_and_motor_round (raw_value : Z)
    (post : gmap string Q -> option Response) : list PumpAction :=
  let current_moisture := read_soil_moisture raw_value in
  let payload : gmap string Q := {[ "moisture" := current_moisture ]} in
  (match post payload with
   | Some result =>
       if pi_motor_on result
       then [MotorOn; Sleep (duration result); MotorOff]
       else [MotorOff]
   | None => [MotorOff]
   end ++ [Sleep 1])%list.

(** ** [dht22_client.py] *)

(** One round of the sender: the body it posts to [/dht22] for a sensor
    read, or [None] when it posts nothing. *)
Definition dht22_round (humidity temperature : option Q)
    : option (gmap string Q) :=
  match humidity, temperature with
  | Some hum, Some temp =>
      Some {[ "temperature" := round1 temp; "humidity" := round1 hum ]}
  | _, _ => None
  end.

(** The server after a round of the sender; [sent] tells whether
    [requests.post] got through (when it raises, the sender only prints). *)
Definition dht22_delivered (humidity temperature : option Q) (sent : bool)
    (g : Globals) : Globals :=
  match dht22_round humidity temperature with
  | Some body => if sent then handle_dht22_data body g else g
  | None => g
  end.

End Clients.

(** The HTTP request of the Pi answered by the server in state [g]. *)
Definition served_by (ts : string) (g : Globals) (payload : gmap string Q)
    : option Response :=
  match handle_moisture_data payload ts g with
  | Ok (r, _) => Some r
  | Raise _ => None
  end.

(** Whether the pump is on after a list of actions, starting from [on]. *)
Definition pump_after (on : bool) (actions : list PumpAction) : bool :=
  fold_left (fun st a => match a with
                         | MotorOn => true
                         | MotorOff => false
                         | Sleep _ => st
                         end) actions on.

(** Seconds spent asleep with the pump on. *)
Fixpoint pump_on_time (on : bool) (actions : list PumpAction) : Z :=
  match actions with
  | [] => 0
  | MotorOn :: rest => pump_on_time true rest
  | MotorOff :: rest => pump_on_time false rest
  | Sleep d :: rest => ((if on then d else 0) + pump_on_time on rest)%Z
  end.

(** ** Notions for the further properties *)

(** The stabilizer's counter stays within the hysteresis window, it counts
    only while the plant is considered visible, and the history is within
    its capacity. *)
Definition stabilizer_consistent (st : Stabilizer) : Prop :=
  (0 <= frames_without_plant st < HYSTERESIS)%Z
  /\ (frames_without_plant st <> 0%Z -> plant_currently_visible st = true)
  /\ (length (prediction_history st) <= HISTORY_SIZE)%nat.

(** Proves that [after_first_frame] (below) is reachable. *)
Ltac reach_after_first_frame :=
  run_from_init 2%nat;
  [ apply (step_capture _ _ _ _ tt)
  | apply step_process_frames; vm_compute; reflexivity ].

(** The state after the first frame of a sick plant has been captured and
    processed. *)
Definition after_first_frame : System unit :=
  match process_frames_iteration sick_plant_binary sick_plant_severity
          sick_plant_format
          (mkSystem initial_globals (Channel.put tt []) [] []) with
  | Ok s => s
  | Raise _ => initial_system
  end.

(** The log after the events [events] (time, message, level) have been
    recorded one after the other with [log_event]. *)
Definition log_all (events : list (string * string * string)) (g : Globals)
    : Globals :=
  fold_left (fun g '(ts, msg, level) => log_event ts msg level g) events g.

Definition entry_of (event : string * string * string) : LogEntry :=
  let '(ts, msg, level) := event in mkLogEntry ts msg level.

(** * The server with readings of any JSON type

    The definitions above type the three readings as the clients send
    them: the moisture is a number, the temperature and the humidity are
    numbers or [None].  The handlers themselves store whatever the JSON
    body holds.  Here the readings may be any JSON value: [VNone] is a
    JSON [null] (what [data.get(key)] also yields for a missing key),
    [VNum] a number, [VOther] a string, array or object.  A JSON boolean
    orders like the number 0 or 1 and is covered by [VNum].

    The functions below are the same source lines as their typed
    counterparts; they take the readings as a separate argument [rd], and
    the [sensors] component of the [Globals] they are given is not read. *)

Inductive Value : Type :=
| VNone
| VNum (x : Q)
| VOther.

(** [v < limit]: Python 3 raises [TypeError] when [None], a string, a
    list or a dict is ordered against a float. *)
Definition lt_value (v : Value) (limit : Q) : Exc bool :=
  match v with
  | VNum x => mret (Qltb x limit)
  | VNone | VOther => Raise TypeError
  end.

(** [v is not None]. *)
Definition is_not_None_value (v : Value) : Exc bool :=
  mret (match v with VNone => false | VNum _ | VOther => true end).

Record RawSensors : Type := mkRawSensors {
  moisture_value : Value;
  temperature_value : Value;
  humidity_value : Value
}.

(** The gate of [process_frames_loop]. *)
Definition conditions_met_raw (rd : RawSensors) (g : Globals)
    (detected_severity : string) : Exc bool :=
  mret (contains spray_durations detected_severity)
  &&& lt_value (moisture_value rd) MOISTURE_LIMIT
  &&& is_not_None_value (humidity_value rd)
  &&& lt_value (humidity_value rd) HUMIDITY_LIMIT
  &&& is_not_None_value (temperature_value rd)
  &&& lt_value (temperature_value rd) TEMP_LIMIT
  &&& mret (negb (motor_running (motor g))).

(** The gate of [handle_moisture_data]. *)
Definition all_conditions_ok_raw (rd : RawSensors) (plant_label : string)
    : Exc bool :=
  mret (contains spray_durations plant_label)
  &&& mret (negb (String.eqb plant_label NO_PLANT))
  &&& lt_value (moisture_value rd) MOISTURE_LIMIT
  &&& is_not_None_value (humidity_value rd)
  &&& lt_value (humidity_value rd) HUMIDITY_LIMIT
  &&& is_not_None_value (temperature_value rd)
  &&& lt_value (temperature_value rd) TEMP_LIMIT.

(** [POST /process].  The result is the state the call leaves, also when
    it raises (the moisture has been stored by then), and the answer or
    the exception. *)
Definition handle_moisture_data_raw (data : gmap string Value) (ts : string)
    (rd : RawSensors) (g : Globals) : RawSensors * Globals * Exc Response :=
  let rd := mkRawSensors (default (VNum 0) (data !! "moisture"))
                         (temperature_value rd) (humidity_value rd) in
  let plant_label := split_first (label (latest_plant g)) in
  if force_spray_now g then
    let g := set_command (mkCommand "RUN" 3) g in
    let g := set_force_spray_now false g in
    let g := log_event ts "Manual override — Force spray for 3s" "warning" g in
    (rd, g, Ok (mkResponse (current_motor_command (command g))
                           (command_duration (command g))))
  else
    match all_conditions_ok_raw rd plant_label with
    | Raise e => (rd, g, Raise e)
    | Ok true =>
        match getitem spray_durations plant_label with
        | Raise e =>
            (rd, set_command (mkCommand "RUN" (command_duration (command g))) g,
             Raise e)
        | Ok d =>
            let g := set_command (mkCommand "RUN" d) g in
            let g := log_event ts ("Auto spray: " ++ plant_label ++ ", "
                                   ++ pretty d ++ "s") "success" g in
            (rd, g, Ok (mkResponse (current_motor_command (command g))
                                   (command_duration (command g))))
        end
    | Ok false =>
        let g := set_command (mkCommand "STOP" 0) g in
        (rd, g, Ok (mkResponse (current_motor_command (command g))
                               (command_duration (command g))))
    end.

(** [POST /dht22]: [data.get(key)] is [None] for a missing key. *)
Definition handle_dht22_data_raw (data : gmap string Value) (rd : RawSensors)
    : RawSensors :=
  mkRawSensors (moisture_value rd)
               (default VNone (data !! "temperature"))
               (default VNone (data !! "humidity")).

Section RawPipeline.

Context {Frame : Type}.
Variable binary_model : Frame -> Q.
Variable severity_model : Frame -> SeverityClass * Q.
Variable format_1f : Q -> string.

(** One iteration of [process_frames_loop].  When the gate raises, the
    exception leaves the loop (the thread ends): the stabilizer and
    [latest_plant] have been written by then, the output queue and the
    threads have not. *)
Definition process_frames_iteration_raw (rd : RawSensors) (s : System Frame)
    : System Frame * Exc unit :=
  match Channel.try_take (raw_frame_queue s) with
  | (None, _) => (s, Ok tt)
  | (Some frame, rest) =>
      let g := globals s in
      let '((stable_label, label_color, stable_conf), st) :=
        stabilize (classify binary_model severity_model format_1f frame)
                  (stabilizer g) in
      let g := set_stabilizer st g in
      let g := set_latest_plant (mkPlant stable_label stable_conf) g in
      let detected_severity := split_first stable_label in
      match conditions_met_raw rd g detected_severity with
      | Raise e =>
          (mkSystem g rest (processed_frame_queue s) (spray_threads s), Raise e)
      | Ok met =>
          (mkSystem g rest
             (Channel.put (stable_label, label_color, stable_conf, frame)
                          (processed_frame_queue s))
             (if (met : bool)
              then (spray_threads s ++ [Started detected_severity])%list
              else spray_threads s),
           Ok tt)
      end
  end.

End RawPipeline.

(** The typed readings of a state, as values. *)
Definition value_of (v : option Q) : Value :=
  match v with
  | Some x => VNum x
  | None => VNone
  end.

Definition readings_of (g : Globals) : RawSensors :=
  mkRawSensors (VNum (latest_moisture (sensors g)))
               (value_of (latest_temperature (sensors g)))
               (value_of (latest_humidity (sensors g))).

(** The readings at start-up. *)
Definition initial_readings : RawSensors := readings_of initial_globals.

(** The types of the data model. *)
Definition is_number (v : Value) : bool :=
  match v with VNum _ => true | VNone | VOther => false end.

Definition number_or_None (v : Value) : bool :=
  match v with VNum _ | VNone => true | VOther => false end.

(** The moisture a body posts is a number, or the body has no moisture. *)
Definition posts_number (data : gmap string Value) : bool :=
  is_number (default (VNum 0) (data !! "moisture")).

(** * Properties *)

(** ** The gates never raise *)

Lemma and_guarded_lt (b : bool) (v : option Q) (limit : Q) :
  Ok b &&& is_not_None v &&& lt v limit = Ok (b && below v limit).
Proof. destruct b, v; reflexivity. Qed.

Lemma and_Ok (b c : bool) : Ok b &&& Ok c = Ok (b && c).
Proof. destruct b; reflexivity. Qed.

Lemma mret_Ok {A} (a : A) : mret a = Ok a.
Proof. reflexivity. Qed.

Lemma lt_Some (x limit : Q) : lt (Some x) limit = Ok (Qltb x limit).
Proof. reflexivity. Qed.

Lemma all_conditions_ok_value g plant_label :
  all_conditions_ok g plant_label = Ok (remote_gate g plant_label).
Proof.
  unfold all_conditions_ok, remote_gate.
  rewrite lt_Some, !mret_Ok, !and_Ok, !and_guarded_lt. reflexivity.
Qed.

Lemma conditions_met_value g detected_severity :
  conditions_met g detected_severity = Ok (local_gate g detected_severity).
Proof.
  unfold conditions_met, local_gate.
  rewrite lt_Some, !mret_Ok, !and_Ok, !and_guarded_lt, and_Ok. reflexivity.
Qed.

(** ** The duration table *)

Lemma spray_durations_lookup (k : string) (d : Z) :
  spray_durations !! k = Some d <->
  (k = "low" /\ d = 2%Z) \/ (k = "medium" /\ d = 3%Z) \/ (k = "high" /\ d = 5%Z).
Proof.
  unfold spray_durations.
  rewrite !lookup_insert_Some, lookup_singleton_Some. split.
  - intros [[<- <-]|[_ [[<- <-]|[_ [<- <-]]]]]; auto.
  - intros [[-> ->]|[[-> ->]|[-> ->]]].
    + left; auto.
    + right; split; [discriminate|]. left; auto.
    + right; split; [discriminate|]. right; split; [discriminate|]. auto.
Qed.

Lemma contains_spray_durations (k : string) :
  contains spray_durations k = true ->
  exists d, spray_durations !! k = Some d /\ getitem spray_durations k = Ok d.
Proof.
  unfold contains, getitem. destruct (spray_durations !! k) as [d|]; [|discriminate].
  intros _. exists d. auto.
Qed.

(** ** What [/process] answers *)

Lemma handle_moisture_data_value data ts g :
  exists g',
    handle_moisture_data data ts g =
      Ok (if force_spray_now g then mkResponse "RUN" 3
          else gate_response (polled data g), g')
    /\ force_spray_now g' = false
    /\ sensors g' = sensors (polled data g)
    /\ latest_plant g' = latest_plant g
    /\ motor g' = motor g
    /\ stabilizer g' = stabilizer g.
Proof.
  unfold handle_moisture_data. fold (polled data g).
  assert (Hf : force_spray_now (polled data g) = force_spray_now g) by reflexivity.
  rewrite Hf. destruct (force_spray_now g) eqn:Hforce.
  - eexists. split; [reflexivity|]. repeat split.
  - rewrite all_conditions_ok_value. unfold gate_response.
    destruct (remote_gate _ _) eqn:Hgate.
    + assert (Hc : contains spray_durations
                     (split_first (label (latest_plant (polled data g)))) = true).
      { unfold remote_gate in Hgate. rewrite !andb_true_iff in Hgate. tauto. }
      destruct (contains_spray_durations _ Hc) as (d & Hd & Hget).
      cbn [mbind Exc_bind]. rewrite Hget, Hd. cbn.
      eexists. split; [reflexivity|]. repeat split; assumption.
    + cbn. eexists. split; [reflexivity|]. repeat split; assumption.
Qed.

Lemma gate_response_cases g :
  gate_response g = mkResponse "RUN" 2 \/ gate_response g = mkResponse "RUN" 3
  \/ gate_response g = mkResponse "RUN" 5 \/ gate_response g = mkResponse "STOP" 0.
Proof.
  unfold gate_response. destruct (remote_gate _ _) eqn:Hgate; [|tauto].
  unfold remote_gate in Hgate. rewrite !andb_true_iff in Hgate.
  destruct Hgate as [[[[Hc _] _] _] _].
  destruct (contains_spray_durations _ Hc) as (d & Hd & _). rewrite Hd.
  apply spray_durations_lookup in Hd.
  destruct Hd as [[_ ->]|[[_ ->]|[_ ->]]]; cbn; tauto.
Qed.

(** ** Polling while the motor runs *)

(** The answer of [/process] does not depend on the state of the motor. *)
Lemma poll_ignores_motor data ts g m :
  exists r g1 g2,
    handle_moisture_data data ts g = Ok (r, g1)
    /\ handle_moisture_data data ts (set_motor m g) = Ok (r, g2).
Proof.
  destruct (handle_moisture_data_value data ts g) as (g1 & Heq1 & _).
  destruct (handle_moisture_data_value data ts (set_motor m g))
    as (g2 & Heq2 & _).
  eexists _, g1, g2. split; [exact Heq1|exact Heq2].
Qed.

(** C1, counterexample: with the motor running, a poll is answered RUN,
    not STOP, both when the force flag is set (RUN for 3 s) and when it is
    clear and the sensor conditions hold (RUN for 5 s). *)
Lemma poll_while_spraying_answers_run :
  motor_running (motor spraying_globals) = true
  /\ (exists g', handle_moisture_data {[ "moisture" := 35%Q ]} "12:00:01"
                   (set_force_spray_now true spraying_globals)
                 = Ok (mkResponse "RUN" 3, g'))
  /\ (exists g', handle_moisture_data {[ "moisture" := 35%Q ]} "12:00:01"
                   spraying_globals
                 = Ok (mkResponse "RUN" 5, g'))
  /\ mkResponse "RUN" 3 <> mkResponse "STOP" 0
  /\ mkResponse "RUN" 5 <> mkResponse "STOP" 0.
Proof.
  split; [reflexivity|].
  split; [eexists; vm_compute; reflexivity|].
  split; [eexists; vm_compute; reflexivity|].
  split; discriminate.
Qed.

(** C1, amended: while the motor is running, [/process] answers RUN with
    duration 3 and clears the flag when the force flag is set, and answers
    STOP with duration 0 when the force flag is clear and the conditions on
    severity, moisture, humidity and temperature are not all met. *)
Theorem poll_while_motor_running data ts g :
  motor_running (motor g) = true ->
  exists r g',
    handle_moisture_data data ts g = Ok (r, g')
    /\ (force_spray_now g = true ->
        r = mkResponse "RUN" 3 /\ force_spray_now g' = false)
    /\ (force_spray_now g = false ->
        remote_gate (polled data g)
                    (split_first (label (latest_plant g))) = false ->
        r = mkResponse "STOP" 0).
Proof.
  intros _. destruct (handle_moisture_data_value data ts g)
    as (g' & Heq & Hforce & _).
  eexists _, g'. split; [exact Heq|]. split.
  - intros ->. auto.
  - intros -> Hgate. unfold gate_response.
    change (latest_plant (polled data g)) with (latest_plant g).
    rewrite Hgate. reflexivity.
Qed.

Lemma poll_while_motor_running_witness :
  motor_running (motor spraying_globals) = true
  /\ exists r g',
    handle_moisture_data {[ "moisture" := 55%Q ]} "12:00:01" spraying_globals
      = Ok (r, g')
    /\ (force_spray_now spraying_globals = true ->
        r = mkResponse "RUN" 3 /\ force_spray_now g' = false)
    /\ (force_spray_now spraying_globals = false ->
        remote_gate (polled {[ "moisture" := 55%Q ]} spraying_globals)
                    (split_first (label (latest_plant spraying_globals))) = false ->
        r = mkResponse "STOP" 0).
Proof.
  split; [reflexivity|].
  apply (poll_while_motor_running {[ "moisture" := 55%Q ]} "12:00:01"
           spraying_globals).
  reflexivity.
Defined.

(** ** Missing humidity or temperature *)

Lemma below_None limit : below None limit = false.
Proof. reflexivity. Qed.

Lemma remote_gate_fails_closed g plant_label :
  latest_humidity (sensors g) = None \/ latest_temperature (sensors g) = None ->
  remote_gate g plant_label = false.
Proof.
  unfold remote_gate. intros [-> | ->]; rewrite below_None.
  - rewrite andb_false_r. reflexivity.
  - apply andb_false_r.
Qed.

Lemma local_gate_fails_closed g detected_severity :
  latest_humidity (sensors g) = None \/ latest_temperature (sensors g) = None ->
  local_gate g detected_severity = false.
Proof.
  unfold local_gate. intros [-> | ->]; rewrite below_None.
  - rewrite andb_false_r. reflexivity.
  - rewrite andb_false_r. reflexivity.
Qed.

Section GateProperties.

Context {Frame : Type}.
Variable binary_model : Frame -> Q.
Variable severity_model : Frame -> SeverityClass * Q.
Variable format_1f : Q -> string.

Local Abbreviation iteration :=
  (process_frames_iteration binary_model severity_model format_1f).

(** With numeric readings an iteration of the processing loop completes;
    it starts a spray thread exactly when the gate holds for the new
    stable label. *)
Lemma process_frames_iteration_value (s : System Frame) :
  exists s',
    iteration s = Ok s'
    /\ sensors (globals s') = sensors (globals s)
    /\ motor (globals s') = motor (globals s)
    /\ (spray_threads s' = spray_threads s
        \/ exists sev,
             local_gate (globals s') sev = true
             /\ spray_threads s' = (spray_threads s ++ [Started sev])%list).
Proof.
  unfold iteration, process_frames_iteration.
  destruct (raw_frame_queue s) as [|frame rest]; cbn [Channel.try_take].
  - exists s. repeat split. left. reflexivity.
  - destruct (stabilize _ _) as [[[stable_label label_color] stable_conf] st].
    rewrite conditions_met_value. cbn [mbind Exc_bind].
    eexists. split; [reflexivity|]. cbn [globals spray_threads].
    split; [reflexivity|]. split; [reflexivity|].
    destruct (local_gate _ _) eqn:Hgate; [right|left; reflexivity].
    eexists. split; [exact Hgate|reflexivity].
Qed.

End GateProperties.

(** ** The manual force flag *)



(** ** A request without a moisture reading *)



(** ** Shape of the answers *)

(** C10: every answer of [/process] is RUN with duration 3 (force branch),
    RUN with a duration among 2, 3 and 5 (gate branch) or STOP with
    duration 0; hence the command is RUN exactly when the duration is
    positive, and the remote node switches its pump on exactly when the
    command is RUN. *)
Theorem process_response_shape data ts g :
  exists r g',
    handle_moisture_data data ts g = Ok (r, g')
    /\ (r = mkResponse "RUN" 2 \/ r = mkResponse "RUN" 3
        \/ r = mkResponse "RUN" 5 \/ r = mkResponse "STOP" 0)
    /\ (force_spray_now g = true -> r = mkResponse "RUN" 3)
    /\ (motor_command r = "RUN" <-> (0 < duration r)%Z)
    /\ pi_motor_on r = String.eqb (motor_command r) "RUN"
    /\ pi_run_for r = duration r.
Proof.
  destruct (handle_moisture_data_value data ts g) as (g' & Heq & _).
  eexists _, g'. split; [exact Heq|].
  assert (Hshape :
    (if force_spray_now g then mkResponse "RUN" 3
     else gate_response (polled data g)) = mkResponse "RUN" 2
    \/ (if force_spray_now g then mkResponse "RUN" 3
        else gate_response (polled data g)) = mkResponse "RUN" 3
    \/ (if force_spray_now g then mkResponse "RUN" 3
        else gate_response (polled data g)) = mkResponse "RUN" 5
    \/ (if force_spray_now g then mkResponse "RUN" 3
        else gate_response (polled data g)) = mkResponse "STOP" 0).
  { destruct (force_spray_now g); [tauto|apply gate_response_cases]. }
  split; [exact Hshape|]. split.
  - intros ->. reflexivity.
  - destruct Hshape as [-> | [-> | [-> | ->]]]; cbn;
      (split; [split; intros H; first [reflexivity | discriminate | lia]|]);
      split; reflexivity.
Qed.

Lemma process_response_shape_witness :
  exists r g',
    handle_moisture_data {[ "moisture" := 35%Q ]} "12:00:01" spraying_globals
      = Ok (r, g')
    /\ (r = mkResponse "RUN" 2 \/ r = mkResponse "RUN" 3
        \/ r = mkResponse "RUN" 5 \/ r = mkResponse "STOP" 0)
    /\ (force_spray_now spraying_globals = true -> r = mkResponse "RUN" 3)
    /\ (motor_command r = "RUN" <-> (0 < duration r)%Z)
    /\ pi_motor_on r = String.eqb (motor_command r) "RUN"
    /\ pi_run_for r = duration r.
Proof.
  exact (process_response_shape {[ "moisture" := 35%Q ]} "12:00:01"
           spraying_globals).
Defined.

(** ** Latest-value channel *)

Lemma deque_append_last {A} (n : nat) (x : A) (d : list A) :
  (0 < n)%nat -> last (deque_append n x d) = Some x.
Proof.
  intros Hn. unfold deque_append.
  destruct (n <? length (d ++ [x]))%nat eqn:Hfull; [|apply last_snoc].
  apply Nat.ltb_lt in Hfull. rewrite length_app in Hfull. cbn in Hfull.
  destruct d as [|y d']; cbn in *; [lia|apply last_snoc].
Qed.

Lemma deque_append_length {A} (n : nat) (x : A) (d : list A) :
  (length d <= n)%nat -> (0 < n)%nat -> (length (deque_append n x d) <= n)%nat.
Proof.
  intros Hd Hn. unfold deque_append.
  destruct (n <? length (d ++ [x]))%nat eqn:Hfull.
  - destruct d as [|y d']; cbn; [lia|]. rewrite length_app. cbn in *. lia.
  - apply Nat.ltb_ge in Hfull. exact Hfull.
Qed.

(** C8: on a single-slot queue, [put a] followed by [put b] leaves
    exactly the item [b]; the next take returns [b] and empties the queue,
    and a take on an empty queue reports that it is empty.  Both operations
    are total functions: neither waits for the other side. *)
Theorem channel_keeps_latest {A} (a b : A) (q : list A) :
  (length q <= 1)%nat ->
  Channel.put b (Channel.put a q) = [b]
  /\ length (Channel.put b (Channel.put a q)) = 1%nat
  /\ Channel.try_take (Channel.put b (Channel.put a q)) = (Some b, [])
  /\ Channel.peek (Channel.put b (Channel.put a q)) = Some b
  /\ Channel.try_take (@nil A) = (None, []).
Proof.
  intros Hq.
  assert (Hput : Channel.put b (Channel.put a q) = [b]).
  { destruct q as [|x [|y q']]; cbn in Hq; [reflexivity|reflexivity|lia]. }
  rewrite Hput. repeat split.
Qed.

Lemma channel_keeps_latest_witness :
  (length [7%nat] <= 1)%nat
  /\ Channel.put 2%nat (Channel.put 1%nat [7%nat]) = [2%nat]
  /\ length (Channel.put 2%nat (Channel.put 1%nat [7%nat])) = 1%nat
  /\ Channel.try_take (Channel.put 2%nat (Channel.put 1%nat [7%nat]))
     = (Some 2%nat, [])
  /\ Channel.peek (Channel.put 2%nat (Channel.put 1%nat [7%nat])) = Some 2%nat
  /\ Channel.try_take (@nil nat) = (None, []).
Proof.
  split; [cbn; lia|].
  apply (channel_keeps_latest 1%nat 2%nat [7%nat]). cbn; lia.
Defined.

(** ** A run of the motor *)



(** ** Temporal stabilizer: the smoothed confidence *)

Lemma enumerate_from_snoc {A} (k : nat) (h : list A) (c : A) :
  combine (seq k (length (h ++ [c]))) (h ++ [c])
  = (combine (seq k (length h)) h ++ [((k + length h)%nat, c)])%list.
Proof.
  revert k. induction h as [|x h IH]; intros k; cbn.
  - rewrite Nat.add_0_r. reflexivity.
  - rewrite IH. rewrite Nat.add_succ_r. reflexivity.
Qed.

Lemma smoothed_confidence_snoc (h : list (string * Q)) (c : string * Q) :
  h <> [] ->
  smoothed_confidence (h ++ [c])
  = (SMOOTHING_ALPHA * snd c + (1 - SMOOTHING_ALPHA) * smoothed_confidence h)%Q.
Proof.
  intros Hne. unfold smoothed_confidence, enumerate.
  rewrite enumerate_from_snoc, fold_left_app. cbn [fold_left plus].
  destruct c as [lbl conf]. unfold smooth_step at 1.
  destruct h as [|x h]; [congruence|]. reflexivity.
Qed.

Lemma smoothed_confidence_single (c : string * Q) :
  smoothed_confidence [c] = snd c.
Proof. destruct c. reflexivity. Qed.

Lemma get_stable_prediction_history st :
  prediction_history (snd (get_stable_prediction st)) = prediction_history st.
Proof.
  unfold get_stable_prediction.
  destruct (prediction_history st) eqn:Hh; [cbn; congruence|].
  destruct (Qle_bool _ _); [reflexivity|].
  destruct (_ && _); reflexivity.
Qed.

Lemma get_stable_prediction_smoothed st :
  smoothed_of (get_stable_prediction st)
  = smoothed_confidence (prediction_history st).
Proof.
  unfold get_stable_prediction, smoothed_of.
  destruct (prediction_history st) eqn:Hh; [reflexivity|].
  destruct (Qle_bool _ _); [reflexivity|].
  destruct (_ && _); reflexivity.
Qed.

Lemma stabilize_history c st :
  prediction_history (snd (stabilize c st))
  = deque_append HISTORY_SIZE c (prediction_history st).
Proof. unfold stabilize. rewrite get_stable_prediction_history. reflexivity. Qed.

Lemma stabilize_smoothed c st :
  smoothed_of (stabilize c st)
  = smoothed_confidence (deque_append HISTORY_SIZE c (prediction_history st)).
Proof. unfold stabilize. rewrite get_stable_prediction_smoothed. reflexivity. Qed.

Lemma deque_append_retained c w :
  deque_append HISTORY_SIZE c w = (retained w ++ [c])%list.
Proof.
  unfold deque_append, retained. rewrite length_app. cbn [length].
  destruct (length w <? HISTORY_SIZE)%nat eqn:Hlt.
  - apply Nat.ltb_lt in Hlt.
    destruct (HISTORY_SIZE <? length w + 1)%nat eqn:Hfull; [|reflexivity].
    apply Nat.ltb_lt in Hfull. lia.
  - apply Nat.ltb_ge in Hlt.
    destruct (HISTORY_SIZE <? length w + 1)%nat eqn:Hfull.
    + destruct w; [cbn in Hlt; unfold HISTORY_SIZE in Hlt; lia|reflexivity].
    + apply Nat.ltb_ge in Hfull. lia.
Qed.

Lemma feed_all_snoc cs c st :
  feed_all (cs ++ [c]) st = snd (stabilize c (feed_all cs st)).
Proof. unfold feed_all. rewrite fold_left_app. reflexivity. Qed.

Lemma feed_all_history_length cs st :
  (length (prediction_history st) <= HISTORY_SIZE)%nat ->
  (length (prediction_history (feed_all cs st)) <= HISTORY_SIZE)%nat.
Proof.
  revert st. induction cs as [|c cs IH]; intros st Hst; [exact Hst|].
  cbn. apply IH. rewrite stabilize_history.
  apply deque_append_length; [exact Hst|unfold HISTORY_SIZE; lia].
Qed.

Lemma feed_all_history_short cs st :
  (length (prediction_history st) + length cs <= HISTORY_SIZE)%nat ->
  prediction_history (feed_all cs st) = (prediction_history st ++ cs)%list.
Proof.
  revert st. induction cs as [|c cs IH]; intros st Hlen; cbn in *.
  - rewrite app_nil_r. reflexivity.
  - rewrite IH; rewrite stabilize_history, deque_append_retained; unfold retained.
    + destruct (length (prediction_history st) <? HISTORY_SIZE)%nat eqn:Hlt.
      * rewrite <- app_assoc. reflexivity.
      * apply Nat.ltb_ge in Hlt. lia.
    + destruct (length (prediction_history st) <? HISTORY_SIZE)%nat eqn:Hlt.
      * rewrite length_app. cbn. lia.
      * apply Nat.ltb_ge in Hlt. lia.
Qed.

(** C5, counterexample: feed one sample of confidence 100 and then
    samples without a plant (confidence 0).  The 21st sample evicts the
    first one from the history, the average is recomputed over twenty
    zeros and the emitted value is 0, whereas the value emitted for the
    20th sample is positive, so 0.1 * 0 + 0.9 * previous is not 0. *)
Lemma smoothing_restarts_when_history_slides :
  let miss := (NO_PLANT, 0%Q) in
  let cs := ("high (100.0%)", 100%Q) :: repeat miss 18 in
  length (cs ++ [miss]) = 20%nat
  /\ (emitted (cs ++ [miss]) miss == 0)%Q
  /\ (0 < emitted cs miss)%Q
  /\ ~ (emitted (cs ++ [miss]) miss
        == SMOOTHING_ALPHA * snd miss
           + (1 - SMOOTHING_ALPHA) * emitted cs miss)%Q.
Proof.
  cbv zeta. split; [reflexivity|].
  split; [vm_compute; reflexivity|].
  split; [vm_compute; reflexivity|].
  unfold Qeq. vm_compute. discriminate.
Qed.

(** C5, amended: the smoothed confidence emitted for the first sample is
    its raw confidence.  For every later sample it is 0.1 * confidence +
    0.9 * s, where s is the average recomputed over the entries of the
    history that the new sample does not evict; while at most 20 samples
    have been consumed nothing is evicted and s is the previously emitted
    smoothed confidence. *)
Theorem smoothed_confidence_recurrence (cs : list (string * Q)) (c1 c2 : string * Q) :
  emitted [] c1 = snd c1
  /\ emitted (cs ++ [c1]) c2
     = (SMOOTHING_ALPHA * snd c2
        + (1 - SMOOTHING_ALPHA)
          * smoothed_confidence
              (retained (prediction_history
                           (feed_all (cs ++ [c1]) initial_stabilizer))))%Q
  /\ ((length cs + 2 <= HISTORY_SIZE)%nat ->
      emitted (cs ++ [c1]) c2
      = (SMOOTHING_ALPHA * snd c2 + (1 - SMOOTHING_ALPHA) * emitted cs c1)%Q).
Proof.
  assert (Hnonempty : forall w : list (string * Q),
            (2 <= length w)%nat \/ (1 <= length w < HISTORY_SIZE)%nat ->
            retained w <> []).
  { intros w Hw. unfold retained.
    destruct (length w <? HISTORY_SIZE)%nat eqn:Hlt.
    - destruct w; cbn in *; [lia|discriminate].
    - apply Nat.ltb_ge in Hlt. unfold HISTORY_SIZE in Hlt.
      destruct w as [|x [|y w]]; cbn in *; [lia|lia|discriminate]. }
  assert (Hlen : (1 <= length (prediction_history
                                 (feed_all (cs ++ [c1]) initial_stabilizer)))%nat).
  { rewrite feed_all_snoc, stabilize_history, deque_append_retained.
    rewrite length_app. cbn. lia. }
  assert (Hstep : emitted (cs ++ [c1]) c2
     = (SMOOTHING_ALPHA * snd c2
        + (1 - SMOOTHING_ALPHA)
          * smoothed_confidence
              (retained (prediction_history
                           (feed_all (cs ++ [c1]) initial_stabilizer))))%Q).
  { unfold emitted. rewrite stabilize_smoothed, deque_append_retained.
    apply smoothed_confidence_snoc. apply Hnonempty.
    destruct (Nat.le_gt_cases 2 (length (prediction_history
                (feed_all (cs ++ [c1]) initial_stabilizer)))) as [H2|H2];
      [left; exact H2|right; unfold HISTORY_SIZE; lia]. }
  split.
  { unfold emitted. rewrite stabilize_smoothed. apply smoothed_confidence_single. }
  split; [exact Hstep|].
  intros Hshort. rewrite Hstep. unfold emitted at 1.
  rewrite stabilize_smoothed, feed_all_snoc, stabilize_history.
  assert (Hh : prediction_history (feed_all cs initial_stabilizer) = cs).
  { rewrite feed_all_history_short; [reflexivity|cbn; lia]. }
  rewrite Hh. unfold retained at 1.
  assert (Hd : deque_append HISTORY_SIZE c1 cs = (cs ++ [c1])%list).
  { rewrite deque_append_retained. unfold retained.
    destruct (length cs <? HISTORY_SIZE)%nat eqn:Hlt; [reflexivity|].
    apply Nat.ltb_ge in Hlt. lia. }
  rewrite Hd.
  destruct (length (cs ++ [c1]) <? HISTORY_SIZE)%nat eqn:Hlt; [reflexivity|].
  apply Nat.ltb_ge in Hlt. rewrite length_app in Hlt. cbn in Hlt. lia.
Qed.

Lemma smoothed_confidence_recurrence_witness :
  emitted [] ("high (80.0%)", 80%Q) = 80%Q
  /\ emitted ([("low (40.0%)", 40%Q)] ++ [("high (80.0%)", 80%Q)])
             ("high (90.0%)", 90%Q)
     = (SMOOTHING_ALPHA * 90
        + (1 - SMOOTHING_ALPHA)
          * smoothed_confidence
              (retained (prediction_history
                           (feed_all ([("low (40.0%)", 40%Q)]
                                      ++ [("high (80.0%)", 80%Q)])
                                     initial_stabilizer))))%Q
  /\ ((length [("low (40.0%)", 40%Q)] + 2 <= HISTORY_SIZE)%nat ->
      emitted ([("low (40.0%)", 40%Q)] ++ [("high (80.0%)", 80%Q)])
              ("high (90.0%)", 90%Q)
      = (SMOOTHING_ALPHA * 90
         + (1 - SMOOTHING_ALPHA)
           * emitted [("low (40.0%)", 40%Q)] ("high (80.0%)", 80%Q))%Q).
Proof.
  exact (smoothed_confidence_recurrence [("low (40.0%)", 40%Q)]
           ("high (80.0%)", 80%Q) ("high (90.0%)", 90%Q)).
Defined.

(** ** Temporal stabilizer: hysteresis *)

Lemma deque_append_nonempty {A} (n : nat) (x : A) (d : list A) :
  (0 < n)%nat -> deque_append n x d <> [].
Proof.
  intros Hn Hnil. pose proof (deque_append_last n x d Hn) as Hlast.
  rewrite Hnil in Hlast. discriminate.
Qed.

Lemma stabilize_above c st :
  Qle_bool MIN_CONFIDENCE (smoothed_of (stabilize c st)) = true ->
  reports_majority (stabilize c st)
  /\ frames_without_plant (snd (stabilize c st)) = 0%Z.
Proof.
  rewrite stabilize_smoothed. unfold reports_majority, stabilize, get_stable_prediction.
  cbn [prediction_history plant_currently_visible frames_without_plant].
  pose proof (deque_append_nonempty HISTORY_SIZE c (prediction_history st)) as Hne.
  destruct (deque_append HISTORY_SIZE c (prediction_history st)) as [|x h];
    [exfalso; apply Hne; [unfold HISTORY_SIZE; lia|reflexivity]|].
  intros ->. repeat split.
Qed.

Lemma stabilize_below c st :
  below_threshold (stabilize c st) ->
  if plant_currently_visible st && (frames_without_plant st + 1 <? HYSTERESIS)%Z
  then reports_majority (stabilize c st)
       /\ frames_without_plant (snd (stabilize c st))
          = (frames_without_plant st + 1)%Z
  else reports_no_plant (stabilize c st).
Proof.
  unfold below_threshold. rewrite stabilize_smoothed.
  unfold reports_majority, reports_no_plant, stabilize, get_stable_prediction.
  cbn [prediction_history plant_currently_visible frames_without_plant].
  pose proof (deque_append_nonempty HISTORY_SIZE c (prediction_history st)) as Hne.
  destruct (deque_append HISTORY_SIZE c (prediction_history st)) as [|x h];
    [exfalso; apply Hne; [unfold HISTORY_SIZE; lia|reflexivity]|].
  intros ->.
  destruct (plant_currently_visible st) eqn:Hv; cbn [andb]; [|repeat split].
  destruct (frames_without_plant st + 1 <? HYSTERESIS)%Z; repeat split.
Qed.

Lemma feed_all_cons c cs st :
  feed_all (c :: cs) st = feed_all cs (snd (stabilize c st)).
Proof. reflexivity. Qed.

(** From a state in which the plant is visible and [n] low evaluations
    have been counted: the next low evaluations keep reporting the majority
    label until the counter would reach [HYSTERESIS]; the evaluation that
    brings it there reports that there is no plant. *)
Lemma hysteresis_run cs : forall st (n : nat),
  plant_currently_visible st = true ->
  frames_without_plant st = Z.of_nat n ->
  Forall below_threshold (stabilizer_trace cs st) ->
  (n + length cs <= 5)%nat ->
  Forall reports_majority (take (4 - n) (stabilizer_trace cs st))
  /\ ((n + length cs < 5)%nat ->
      plant_currently_visible (feed_all cs st) = true
      /\ frames_without_plant (feed_all cs st) = Z.of_nat (n + length cs))
  /\ ((n + length cs = 5)%nat -> cs <> [] ->
      exists r, last (stabilizer_trace cs st) = Some r /\ reports_no_plant r).
Proof.
  induction cs as [|c cs IH]; intros st n Hvis Hcount Hlow Hlen.
  - cbn. rewrite take_nil. split; [constructor|]. split.
    + intros _. rewrite Nat.add_0_r. auto.
    + intros _ Hne. congruence.
  - cbn [stabilizer_trace] in *. cbn [length] in Hlen.
    apply Forall_cons in Hlow. destruct Hlow as [Hlow1 Hlow].
    pose proof (stabilize_below c st Hlow1) as Hstep.
    rewrite Hvis, Hcount in Hstep. cbn [andb] in Hstep.
    destruct (Z.of_nat n + 1 <? HYSTERESIS)%Z eqn:Hlt.
    + apply Z.ltb_lt in Hlt. unfold HYSTERESIS in Hlt.
      destruct Hstep as [Hmaj Hcount'].
      destruct (IH (snd (stabilize c st)) (S n)) as (IH1 & IH2 & IH3);
        [apply Hmaj|rewrite Hcount'; lia|exact Hlow|lia|].
      replace (4 - n)%nat with (S (4 - S n)) by lia.
      cbn [take]. split; [constructor; assumption|]. split.
      * intros Hshort. cbn [length] in Hshort. rewrite feed_all_cons.
        destruct IH2 as [Hv Hc]; [lia|]. split; [exact Hv|].
        rewrite Hc. cbn [length]. lia.
      * intros Hfive _. destruct cs as [|c' cs']; [cbn in Hfive; lia|].
        destruct IH3 as (r & Hlast & Hflip); [cbn [length] in *; lia|discriminate|].
        exists r. split; [|exact Hflip].
        cbn [stabilizer_trace] in *. rewrite <- Hlast. reflexivity.
    + apply Z.ltb_ge in Hlt. unfold HYSTERESIS in Hlt.
      assert (Hn : n = 4%nat) by lia. subst n.
      destruct cs as [|c' cs']; [|cbn [length] in Hlen; lia].
      cbn. split; [constructor|]. split; [intros; lia|].
      intros _ _. eexists. split; [reflexivity|exact Hstep].
Qed.

Lemma valid_labels_app_misses (h ms : list (string * Q)) :
  Forall (fun c => fst c = NO_PLANT) ms ->
  valid_labels (h ++ ms) = valid_labels h.
Proof.
  intros Hms. unfold valid_labels. rewrite List.filter_app, map_app.
  assert (Hnil : List.filter (fun e => negb (String.eqb (fst e) NO_PLANT)) ms = []).
  { induction Hms as [|c ms Hc _ IH]; [reflexivity|].
    cbn. rewrite Hc, String.eqb_refl. exact IH. }
  rewrite Hnil. apply app_nil_r.
Qed.

Lemma most_common_app_misses (h ms : list (string * Q)) :
  Forall (fun c => fst c = NO_PLANT) ms ->
  most_common (h ++ ms) = most_common h.
Proof.
  intros Hms. unfold most_common. rewrite valid_labels_app_misses by exact Hms.
  reflexivity.
Qed.

(** Frames without a plant that do not push anything out of the history
    leave the majority label as it was. *)
Lemma misses_keep_majority cs : forall st,
  Forall (fun c => fst c = NO_PLANT) cs ->
  (length (prediction_history st) + length cs <= HISTORY_SIZE)%nat ->
  Forall (fun r => most_common (prediction_history (snd r))
                   = most_common (prediction_history st))
         (stabilizer_trace cs st).
Proof.
  induction cs as [|c cs IH]; intros st Hms Hlen; [constructor|].
  apply Forall_cons in Hms. destruct Hms as [Hc Hms]. cbn [length] in Hlen.
  assert (Hh : prediction_history (snd (stabilize c st))
               = (prediction_history st ++ [c])%list).
  { rewrite stabilize_history, deque_append_retained. unfold retained.
    destruct (length (prediction_history st) <? HISTORY_SIZE)%nat eqn:Hlt;
      [reflexivity|]. apply Nat.ltb_ge in Hlt. lia. }
  assert (Hmc : most_common (prediction_history (snd (stabilize c st)))
                = most_common (prediction_history st)).
  { rewrite Hh. apply most_common_app_misses. constructor; [exact Hc|constructor]. }
  cbn [stabilizer_trace]. constructor; [exact Hmc|].
  eapply Forall_impl; [apply IH; [exact Hms|]|].
  - rewrite Hh, length_app. cbn. lia.
  - intros r Hr. cbn beta in Hr. rewrite Hr. exact Hmc.
Qed.

(** C6, counterexample: a run of fewer than 5 evaluations below the
    threshold does not keep the label reported before it.  After the first
    frame ("low (36.0%)", 36) the stabilizer reports "low (36.0%)" with
    smoothed confidence 36.  The next three frames -- no plant, then twice
    ("high (34.0%)", 34) -- give the smoothed confidences 32.4, 32.56 and
    32.704, all below 35; the labels of the history are then one
    "low (36.0%)" and two "high (34.0%)", and the third evaluation of the
    run reports "high (34.0%)": the majority label is recomputed over the
    history at every evaluation, low ones included. *)
Lemma low_run_changes_reported_label :
  Qle_bool MIN_CONFIDENCE
    (smoothed_of (stabilize faint_detection initial_stabilizer)) = true
  /\ label_of (stabilize faint_detection initial_stabilizer) = "low (36.0%)"
  /\ Forall below_threshold
       (stabilizer_trace drifting_run
          (snd (stabilize faint_detection initial_stabilizer)))
  /\ (length drifting_run < 5)%nat
  /\ exists r,
       last (stabilizer_trace drifting_run
               (snd (stabilize faint_detection initial_stabilizer))) = Some r
       /\ label_of r = "high (34.0%)"
       /\ label_of r <> label_of (stabilize faint_detection initial_stabilizer).
Proof.
  split; [vm_compute; reflexivity|].
  split; [vm_compute; reflexivity|].
  split; [repeat constructor; vm_compute; reflexivity|].
  split; [cbn; lia|].
  eexists. split; [reflexivity|].
  split; [vm_compute; reflexivity|].
  vm_compute. discriminate.
Qed.

(** C6, amended: after an evaluation at or above the threshold (the plant
    is visible), consecutive evaluations below the threshold keep reporting
    the majority label of the history as it stands at each evaluation while
    fewer than 5 of them have occurred -- the same label as before the run
    when the low frames are frames without a plant that evict nothing --
    and the fifth one reports "No Plant Detected" and resets the visibility
    flag and the counter. *)
Theorem hysteresis_holds_then_flips st c0 cs :
  Qle_bool MIN_CONFIDENCE (smoothed_of (stabilize c0 st)) = true ->
  Forall below_threshold (stabilizer_trace cs (snd (stabilize c0 st))) ->
  (length cs <= 5)%nat ->
  Forall reports_majority (take 4 (stabilizer_trace cs (snd (stabilize c0 st))))
  /\ (Forall (fun c => fst c = NO_PLANT) cs ->
      (length (prediction_history (snd (stabilize c0 st))) + length cs
       <= HISTORY_SIZE)%nat ->
      Forall (fun r => label_of r = label_of (stabilize c0 st))
             (take 4 (stabilizer_trace cs (snd (stabilize c0 st)))))
  /\ ((length cs < 5)%nat ->
      plant_currently_visible (feed_all cs (snd (stabilize c0 st))) = true
      /\ frames_without_plant (feed_all cs (snd (stabilize c0 st)))
         = Z.of_nat (length cs))
  /\ (length cs = 5%nat ->
      exists r,
        last (stabilizer_trace cs (snd (stabilize c0 st))) = Some r
        /\ reports_no_plant r).
Proof.
  intros Habove Hlow Hlen.
  destruct (stabilize_above c0 st Habove) as [[Hlabel0 Hvis0] Hcount0].
  destruct (hysteresis_run cs (snd (stabilize c0 st)) 0 Hvis0 Hcount0 Hlow)
    as (Hmaj & Hshort & Hflip); [cbn; lia|].
  cbn [Nat.sub Nat.add] in *. split; [exact Hmaj|]. split; [|split].
  - intros Hms Hroom.
    pose proof (misses_keep_majority cs (snd (stabilize c0 st)) Hms Hroom) as Hsame.
    apply (Forall_take _ 4) in Hsame.
    revert Hmaj Hsame. generalize (take 4 (stabilizer_trace cs (snd (stabilize c0 st)))).
    intros l Hmaj Hsame. induction l as [|r l IH]; [constructor|].
    apply Forall_cons in Hmaj. apply Forall_cons in Hsame.
    destruct Hmaj as [[Hr _] Hmaj], Hsame as [Hr' Hsame].
    constructor; [|apply IH; assumption].
    rewrite Hr, Hr', Hlabel0. reflexivity.
  - exact Hshort.
  - intros Hfive. apply Hflip; [exact Hfive|].
    destruct cs; [discriminate|discriminate].
Qed.

Lemma hysteresis_holds_then_flips_witness :
  Qle_bool MIN_CONFIDENCE
    (smoothed_of (stabilize faint_detection initial_stabilizer)) = true
  /\ Forall below_threshold
       (stabilizer_trace (missed_frames 5)
          (snd (stabilize faint_detection initial_stabilizer)))
  /\ (length (missed_frames 5) <= 5)%nat
  /\ Forall reports_majority
       (take 4 (stabilizer_trace (missed_frames 5)
                  (snd (stabilize faint_detection initial_stabilizer))))
  /\ (Forall (fun c => fst c = NO_PLANT) (missed_frames 5) ->
      (length (prediction_history
                 (snd (stabilize faint_detection initial_stabilizer)))
       + length (missed_frames 5) <= HISTORY_SIZE)%nat ->
      Forall (fun r => label_of r
                       = label_of (stabilize faint_detection initial_stabilizer))
             (take 4 (stabilizer_trace (missed_frames 5)
                        (snd (stabilize faint_detection initial_stabilizer)))))
  /\ ((length (missed_frames 5) < 5)%nat ->
      plant_currently_visible
        (feed_all (missed_frames 5)
           (snd (stabilize faint_detection initial_stabilizer))) = true
      /\ frames_without_plant
           (feed_all (missed_frames 5)
              (snd (stabilize faint_detection initial_stabilizer)))
         = Z.of_nat (length (missed_frames 5)))
  /\ (length (missed_frames 5) = 5%nat ->
      exists r,
        last (stabilizer_trace (missed_frames 5)
                (snd (stabilize faint_detection initial_stabilizer))) = Some r
        /\ reports_no_plant r).
Proof.
  assert (Habove : Qle_bool MIN_CONFIDENCE
            (smoothed_of (stabilize faint_detection initial_stabilizer)) = true)
    by (vm_compute; reflexivity).
  assert (Hlow : Forall below_threshold
            (stabilizer_trace (missed_frames 5)
               (snd (stabilize faint_detection initial_stabilizer))))
    by (repeat constructor; vm_compute; reflexivity).
  assert (Hlen : (length (missed_frames 5) <= 5)%nat) by (cbn; lia).
  split; [exact Habove|]. split; [exact Hlow|]. split; [exact Hlen|].
  exact (hysteresis_holds_then_flips initial_stabilizer faint_detection
           (missed_frames 5) Habove Hlow Hlen).
Defined.

(** ** Overlapping motor runs *)

Section AutoTrigger.

Context {Frame : Type}.
Variable binary_model : Frame -> Q.
Variable severity_model : Frame -> SeverityClass * Q.
Variable format_1f : Q -> string.

(** The processing loop starts a spray thread only when it reads
    [motor_running] as false. *)
Lemma auto_trigger_requires_idle (s s' : System Frame) :
  process_frames_iteration binary_model severity_model format_1f s = Ok s' ->
  spray_threads s' <> spray_threads s ->
  motor_running (motor (globals s)) = false.
Proof.
  intros Heq Hnew.
  destruct (process_frames_iteration_value binary_model severity_model
              format_1f s) as (s1 & Heq1 & _ & Hmotor & Hthreads).
  rewrite Heq in Heq1. injection Heq1 as <-.
  destruct Hthreads as [Hsame | (sev & Hgate & _)]; [contradiction|].
  unfold local_gate in Hgate. rewrite !andb_true_iff in Hgate.
  destruct Hgate as [_ Hidle]. rewrite Hmotor in Hidle.
  destruct (motor_running (motor (globals s))); [discriminate|reflexivity].
Qed.

Lemma run_motor_spray_begin_sets_flag severity_level now ts g d g' :
  run_motor_spray_begin severity_level now ts g = Some (d, g') ->
  motor_running (motor g') = true.
Proof.
  unfold run_motor_spray_begin.
  destruct (spray_durations !! severity_level); [|discriminate].
  intros [= _ <-]. reflexivity.
Qed.

Lemma singleton_split {A} (pre post : list A) (x y : A) :
  (pre ++ x :: post)%list = [y] -> pre = [] /\ x = y /\ post = [].
Proof.
  destruct pre as [|a pre]; cbn.
  - intros [= -> ->]. auto.
  - intros [= _ H]. destruct pre; discriminate.
Qed.

(** Under prompt schedules the flag tracks the run, so that at most one
    motor run is in progress. *)
Lemma prompt_schedule_keeps_flag (s : System Frame) :
  prompt_reachable binary_model severity_model format_1f s ->
  flag_tracks_run s.
Proof.
  induction 1 as [|s s' _ IH Hstep Hprompt].
  - left. split; [reflexivity|left; reflexivity].
  - destruct Hstep as [s frame|s s' Hiter|s pre post sev now ts d g Hthr Hbegin
                       |s pre post sev now ts Hthr Hret|s pre post d ts Hthr
                       |s data ts r g Hpoll|s data|s ts].
    + exact IH.
    + destruct (process_frames_iteration_value binary_model severity_model
                  format_1f s) as (s1 & Heq & _ & Hmotor & Hthreads).
      rewrite Hiter in Heq. injection Heq as <-.
      unfold flag_tracks_run. rewrite Hmotor.
      destruct Hthreads as [-> | (sev & Hgate & Hnew)]; [exact IH|].
      unfold local_gate in Hgate. rewrite !andb_true_iff in Hgate.
      destruct Hgate as [_ Hidle]. rewrite Hmotor in Hidle.
      assert (Hpend : no_pending s).
      { apply Hprompt. rewrite Hnew, length_app. cbn. lia. }
      destruct IH as [[Hfalse [Hnil | (sev' & Hone)]] | [Htrue _]].
      * left. split; [exact Hfalse|]. right. exists sev.
        rewrite Hnew, Hnil. reflexivity.
      * unfold no_pending in Hpend. rewrite Hone in Hpend. discriminate.
      * rewrite Htrue in Hidle. discriminate.
    + right. cbn. split; [eapply run_motor_spray_begin_sets_flag; exact Hbegin|].
      destruct IH as [[_ [Hnil | (sev' & Hone)]] | [_ (d' & Hone)]];
        rewrite Hthr in *.
      * destruct pre; discriminate.
      * apply singleton_split in Hone. destruct Hone as (-> & _ & ->).
        exists d. reflexivity.
      * apply singleton_split in Hone. destruct Hone as (_ & Hkind & _).
        discriminate.
    + destruct IH as [[Hfalse [Hnil | (sev' & Hone)]] | [_ (d' & Hone)]];
        rewrite Hthr in *.
      * destruct pre; discriminate.
      * apply singleton_split in Hone. destruct Hone as (-> & _ & ->).
        left. split; [exact Hfalse|left; reflexivity].
      * apply singleton_split in Hone. destruct Hone as (_ & Hkind & _).
        discriminate.
    + destruct IH as [[_ [Hnil | (sev' & Hone)]] | [_ (d' & Hone)]];
        rewrite Hthr in *.
      * destruct pre; discriminate.
      * apply singleton_split in Hone. destruct Hone as (_ & Hkind & _).
        discriminate.
      * apply singleton_split in Hone. destruct Hone as (-> & _ & ->).
        left. split; [reflexivity|left; reflexivity].
    + destruct (handle_moisture_data_value data ts (globals s))
        as (g' & Heq & _ & _ & _ & Hmotor & _).
      rewrite Hpoll in Heq. injection Heq as _ <-.
      unfold flag_tracks_run. cbn. rewrite Hmotor. exact IH.
    + exact IH.
    + exact IH.
Qed.

Lemma prompt_schedule_excludes_overlap (s : System Frame) :
  prompt_reachable binary_model severity_model format_1f s ->
  (active_runs s <= 1)%nat.
Proof.
  intros Hreach. unfold active_runs.
  destruct (prompt_schedule_keeps_flag s Hreach)
    as [[_ [-> | (sev & ->)]] | [_ (d & ->)]]; cbn; lia.
Qed.

End AutoTrigger.

(** C2: the flag [motor_running] is set by the spray thread itself, after
    the processing loop has started it.  With humidity 50 and temperature
    22 posted and two frames of a plant classified "high" processed before
    the first spray thread runs, both threads find nothing in their way:
    a state with two motor runs in progress is reachable, and so is a
    state in which one run is still in progress while [motor_running], cleared
    by the run that ended first, reads false. *)
Theorem two_motor_runs_overlap :
  (exists s : System unit,
     reachable sick_plant_binary sick_plant_severity sick_plant_format s
     /\ active_runs s = 2%nat
     /\ spray_threads s = [Sleeping 5; Sleeping 5])
  /\ (exists s : System unit,
        reachable sick_plant_binary sick_plant_severity sick_plant_format s
        /\ active_runs s = 1%nat
        /\ motor_running (motor (globals s)) = false).
Proof.
  assert (Htwo : exists s : System unit,
     reachable sick_plant_binary sick_plant_severity sick_plant_format s
     /\ spray_threads s = [Sleeping 5; Sleeping 5]).
  { eexists. split.
    - run_from_init 7%nat.
      + apply (step_dht22 _ _ _ _
                 {[ "temperature" := 22%Q; "humidity" := 50%Q ]}).
      + apply (step_capture _ _ _ _ tt).
      + apply step_process_frames. vm_compute. reflexivity.
      + apply (step_capture _ _ _ _ tt).
      + apply step_process_frames. vm_compute. reflexivity.
      + eapply (step_spray_begin _ _ _ _ [] [Started "high"] "high" 100
                  "12:00:00"); vm_compute; reflexivity.
      + eapply (step_spray_begin _ _ _ _ [Sleeping 5] [] "high" 100
                  "12:00:00"); vm_compute; reflexivity.
    - reflexivity. }
  destruct Htwo as (s & Hreach & Hthreads). split.
  - exists s. split; [exact Hreach|]. split; [|exact Hthreads].
    unfold active_runs. rewrite Hthreads. reflexivity.
  - eexists. split.
    + eapply reachable_step; [exact Hreach|].
      apply (step_spray_end _ _ _ _ [] [Sleeping 5] 5 "12:00:05"). exact Hthreads.
    + split; reflexivity.
Qed.


(** * Further properties *)

(** ** Bounded buffers *)

Lemma log_event_length ts msg level g :
  (length (activity_log g) <= 50)%nat ->
  (length (activity_log (log_event ts msg level g)) <= 50)%nat.
Proof. intros H. cbn. apply deque_append_length; [exact H|lia]. Qed.

(** [/process] writes one log entry, stamped with the time of the call,
    when it answers RUN, and none when it answers STOP. *)
Lemma handle_moisture_data_log data ts g r g' :
  handle_moisture_data data ts g = Ok (r, g') ->
  (motor_command r = "STOP" /\ activity_log g' = activity_log g)
  \/ (motor_command r = "RUN"
      /\ exists msg level,
           activity_log g'
           = deque_append 50 (mkLogEntry ts msg level) (activity_log g)).
Proof.
  unfold handle_moisture_data. fold (polled data g).
  change (force_spray_now (polled data g)) with (force_spray_now g).
  destruct (force_spray_now g).
  - cbn. intros [= <- <-]. right. split; [reflexivity|]. eauto.
  - rewrite all_conditions_ok_value. destruct (remote_gate _ _) eqn:Hgate.
    + assert (Hc : contains spray_durations
                     (split_first (label (latest_plant (polled data g)))) = true).
      { unfold remote_gate in Hgate. rewrite !andb_true_iff in Hgate. tauto. }
      destruct (contains_spray_durations _ Hc) as (d & _ & Hget).
      cbn [mbind Exc_bind]. rewrite Hget. cbn.
      intros [= <- <-]. right. split; [reflexivity|]. eauto.
    + cbn. intros [= <- <-]. left. split; reflexivity.
Qed.

Section Reachability.

Context {Frame : Type}.
Variable binary_model : Frame -> Q.
Variable severity_model : Frame -> SeverityClass * Q.
Variable format_1f : Q -> string.

Local Abbreviation iteration :=
  (process_frames_iteration binary_model severity_model format_1f).
Local Abbreviation classified := (classify binary_model severity_model format_1f).

(** The state an iteration of the processing loop produces. *)
Lemma process_frames_iteration_frame (s : System Frame) frame rest :
  raw_frame_queue s = frame :: rest ->
  iteration s
  = Ok (let r := stabilize (classified frame) (stabilizer (globals s)) in
        let g := set_latest_plant (mkPlant (label_of r) (smoothed_of r))
                   (set_stabilizer (snd r) (globals s)) in
        mkSystem g rest
          (Channel.put (fst r, frame) (processed_frame_queue s))
          (if local_gate g (split_first (label_of r))
           then (spray_threads s ++ [Started (split_first (label_of r))])%list
           else spray_threads s)).
Proof.
  intros Hq. unfold process_frames_iteration. rewrite Hq. cbn [Channel.try_take].
  destruct (stabilize _ _) as [[[stable_label label_color] stable_conf] st].
  rewrite conditions_met_value. reflexivity.
Qed.

Lemma process_frames_iteration_empty (s : System Frame) :
  raw_frame_queue s = [] -> iteration s = Ok s.
Proof. intros Hq. unfold process_frames_iteration. rewrite Hq. reflexivity. Qed.

Lemma run_motor_spray_begin_value severity_level now ts g d g' :
  run_motor_spray_begin severity_level now ts g = Some (d, g') ->
  spray_durations !! severity_level = Some d
  /\ g' = log_event ts ("Motor ON for " ++ pretty d ++ "s — "
                        ++ upper severity_level ++ " severity") "success"
            (set_motor (mkMotor true (spray_in_progress (motor g)) now d
                                (freeze_active (motor g))
                                (manual_spray_prompt (motor g))) g).
Proof.
  unfold run_motor_spray_begin.
  destruct (spray_durations !! severity_level); [|discriminate].
  intros [= <- <-]. auto.
Qed.

(** X1: in every reachable state the activity log holds at most 50
    entries, the prediction history at most 20, and each of the two frame
    queues at most one item. *)
Theorem reachable_buffers_bounded (s : System Frame) :
  reachable binary_model severity_model format_1f s ->
  (length (activity_log (globals s)) <= 50)%nat
  /\ (length (prediction_history (stabilizer (globals s))) <= HISTORY_SIZE)%nat
  /\ (length (raw_frame_queue s) <= 1)%nat
  /\ (length (processed_frame_queue s) <= 1)%nat.
Proof.
  induction 1 as [|s s' _ IH Hstep].
  - cbn. unfold HISTORY_SIZE. lia.
  - destruct IH as (Hlog & Hhist & Hraw & Hproc).
    destruct Hstep as [s frame|s s' Hiter|s pre post sev now ts d g Hthr Hbegin
                       |s pre post sev now ts Hthr Hret|s pre post d ts Hthr
                       |s data ts r g Hpoll|s data|s ts].
    + cbn. repeat split; try assumption.
      apply deque_append_length; [exact Hraw|lia].
    + destruct (raw_frame_queue s) as [|frame rest] eqn:Hq.
      * rewrite (process_frames_iteration_empty s Hq) in Hiter.
        injection Hiter as <-. rewrite Hq. auto.
      * rewrite (process_frames_iteration_frame s frame rest Hq) in Hiter.
        injection Hiter as <-. cbn. split; [exact Hlog|]. split.
        -- rewrite stabilize_history.
           apply deque_append_length; [exact Hhist|unfold HISTORY_SIZE; lia].
        -- cbn in Hraw. split; [lia|].
           apply deque_append_length; [exact Hproc|lia].
    + apply run_motor_spray_begin_value in Hbegin. destruct Hbegin as [_ ->].
      cbn. repeat split; try assumption.
      apply deque_append_length; [exact Hlog|lia].
    + cbn. auto.
    + cbn. repeat split; try assumption.
      apply deque_append_length; [exact Hlog|lia].
    + destruct (handle_moisture_data_value data ts (globals s))
        as (g' & Heq & _ & _ & _ & _ & Hstab).
      rewrite Hpoll in Heq. injection Heq as _ <-.
      cbn. rewrite Hstab. repeat split; try assumption.
      destruct (handle_moisture_data_log _ _ _ _ _ Hpoll)
        as [[_ ->] | [_ (msg & level & ->)]]; [exact Hlog|].
      apply deque_append_length; [exact Hlog|lia].
    + cbn. auto.
    + cbn. repeat split; try assumption.
      apply deque_append_length; [exact Hlog|lia].
Qed.

End Reachability.

Lemma reachable_buffers_bounded_witness :
  reachable sick_plant_binary sick_plant_severity sick_plant_format
            after_first_frame
  /\ (length (activity_log (globals after_first_frame)) <= 50)%nat
  /\ (length (prediction_history (stabilizer (globals after_first_frame)))
      <= HISTORY_SIZE)%nat
  /\ (length (raw_frame_queue after_first_frame) <= 1)%nat
  /\ (length (processed_frame_queue after_first_frame) <= 1)%nat.
Proof.
  assert (Hreach : reachable sick_plant_binary sick_plant_severity
                     sick_plant_format after_first_frame)
    by reach_after_first_frame.
  split; [exact Hreach|].
  exact (reachable_buffers_bounded sick_plant_binary sick_plant_severity
           sick_plant_format after_first_frame Hreach).
Defined.

(** ** Invariant of the stabilizer *)

Lemma stabilize_consistent c st :
  stabilizer_consistent st -> stabilizer_consistent (snd (stabilize c st)).
Proof.
  intros (Hrange & Hvis & Hlen). unfold stabilizer_consistent.
  rewrite stabilize_history.
  assert (Hlen' : (length (deque_append HISTORY_SIZE c (prediction_history st))
                   <= HISTORY_SIZE)%nat)
    by (apply deque_append_length; [exact Hlen|unfold HISTORY_SIZE; lia]).
  destruct (Qle_bool MIN_CONFIDENCE (smoothed_of (stabilize c st))) eqn:Hcmp.
  - destruct (stabilize_above c st Hcmp) as [[_ Hv] Hc]. rewrite Hc.
    unfold HYSTERESIS. repeat split; try lia; auto.
  - pose proof (stabilize_below c st Hcmp) as Hstep.
    destruct (plant_currently_visible st) eqn:Hv0; cbn [andb] in Hstep.
    + destruct (frames_without_plant st + 1 <? HYSTERESIS)%Z eqn:Hlt.
      * apply Z.ltb_lt in Hlt. destruct Hstep as [[_ Hv] Hc]. rewrite Hc.
        repeat split; try lia; auto.
      * destruct Hstep as (_ & _ & Hc). rewrite Hc. unfold HYSTERESIS.
        repeat split; try lia; auto; intros Hne; contradiction.
    + destruct Hstep as (_ & _ & Hc). rewrite Hc. unfold HYSTERESIS.
      repeat split; try lia; auto; intros Hne; contradiction.
Qed.

Section Invariants.

Context {Frame : Type}.
Variable binary_model : Frame -> Q.
Variable severity_model : Frame -> SeverityClass * Q.
Variable format_1f : Q -> string.

(** A step either leaves the stabilizer, [latest_plant] and the output
    queue as they are, or it is an iteration of the processing loop on a
    frame and updates the three together. *)
Lemma step_plant_effect (s s' : System Frame) :
  step binary_model severity_model format_1f s s' ->
  (stabilizer (globals s') = stabilizer (globals s)
   /\ latest_plant (globals s') = latest_plant (globals s)
   /\ processed_frame_queue s' = processed_frame_queue s)
  \/ (exists frame,
        stabilizer (globals s')
        = snd (stabilize (classify binary_model severity_model format_1f frame)
                         (stabilizer (globals s)))
        /\ latest_plant (globals s')
           = mkPlant
               (label_of (stabilize (classify binary_model severity_model
                                              format_1f frame)
                                    (stabilizer (globals s))))
               (smoothed_of (stabilize (classify binary_model severity_model
                                                 format_1f frame)
                                       (stabilizer (globals s))))
        /\ processed_frame_queue s'
           = Channel.put
               (fst (stabilize (classify binary_model severity_model
                                         format_1f frame)
                               (stabilizer (globals s))), frame)
               (processed_frame_queue s)).
Proof.
  intros Hstep.
  destruct Hstep as [s frame|s s' Hiter|s pre post sev now ts d g Hthr Hbegin
                     |s pre post sev now ts Hthr Hret|s pre post d ts Hthr
                     |s data ts r g Hpoll|s data|s ts].
  - left. cbn. auto.
  - destruct (raw_frame_queue s) as [|frame rest] eqn:Hq.
    + left. rewrite (process_frames_iteration_empty _ _ _ s Hq) in Hiter.
      injection Hiter as <-. auto.
    + right. exists frame.
      rewrite (process_frames_iteration_frame _ _ _ s frame rest Hq) in Hiter.
      injection Hiter as <-. cbn. auto.
  - left. apply run_motor_spray_begin_value in Hbegin.
    destruct Hbegin as [_ ->]. cbn. auto.
  - left. cbn. auto.
  - left. cbn. auto.
  - left. destruct (handle_moisture_data_value data ts (globals s))
      as (g' & Heq & _ & _ & Hplant & _ & Hstab).
    rewrite Hpoll in Heq. injection Heq as _ <-. cbn. auto.
  - left. cbn. auto.
  - left. cbn. auto.
Qed.

(** X2: in every reachable state the counter of frames without a plant
    lies between 0 and 4, and it is non-zero only while the plant is
    still considered visible. *)
Theorem reachable_stabilizer_consistent (s : System Frame) :
  reachable binary_model severity_model format_1f s ->
  (0 <= frames_without_plant (stabilizer (globals s)) <= 4)%Z
  /\ (frames_without_plant (stabilizer (globals s)) <> 0%Z ->
      plant_currently_visible (stabilizer (globals s)) = true).
Proof.
  intros Hreach.
  assert (Hinv : stabilizer_consistent (stabilizer (globals s))).
  { induction Hreach as [|s s' _ IH Hstep].
    - unfold stabilizer_consistent, HYSTERESIS, HISTORY_SIZE. cbn.
      repeat split; try lia; intros Hne; contradiction.
    - destruct (step_plant_effect s s' Hstep)
        as [(Hstab & _) | (frame & Hstab & _)]; rewrite Hstab;
        [exact IH|apply stabilize_consistent; exact IH]. }
  destruct Hinv as (Hrange & Hvis & _). unfold HYSTERESIS in Hrange.
  split; [lia|exact Hvis].
Qed.

End Invariants.

Lemma reachable_stabilizer_consistent_witness :
  reachable sick_plant_binary sick_plant_severity sick_plant_format
            after_first_frame
  /\ (0 <= frames_without_plant (stabilizer (globals after_first_frame)) <= 4)%Z
  /\ (frames_without_plant (stabilizer (globals after_first_frame)) <> 0%Z ->
      plant_currently_visible (stabilizer (globals after_first_frame)) = true).
Proof.
  assert (Hreach : reachable sick_plant_binary sick_plant_severity
                     sick_plant_format after_first_frame)
    by reach_after_first_frame.
  split; [exact Hreach|].
  exact (reachable_stabilizer_consistent sick_plant_binary sick_plant_severity
           sick_plant_format after_first_frame Hreach).
Defined.

(** ** The majority label *)

Lemma max_by_In {A} (key : A -> nat) (best : A) (l : list A) :
  In (max_by key best l) (best :: l).
Proof.
  revert best. induction l as [|x l IH]; intros best; cbn [max_by].
  - left. reflexivity.
  - destruct (IH (if (key best <? key x)%nat then x else best)) as [Heq | Hin].
    + rewrite <- Heq. destruct (key best <? key x)%nat; cbn; auto.
    + right. right. exact Hin.
Qed.

Lemma max_by_ge {A} (key : A -> nat) (best : A) (l : list A) (x : A) :
  In x (best :: l) -> (key x <= key (max_by key best l))%nat.
Proof.
  revert best x. induction l as [|y l IH]; intros best x Hin; cbn [max_by].
  - destruct Hin as [<- | []]. lia.
  - assert (Hbest : (key best <= key (if (key best <? key y)%nat then y else best))%nat
                    /\ (key y <= key (if (key best <? key y)%nat then y else best))%nat).
    { destruct (key best <? key y)%nat eqn:Hlt.
      - apply Nat.ltb_lt in Hlt. lia.
      - apply Nat.ltb_ge in Hlt. lia. }
    destruct Hin as [<- | [<- | Hin]].
    + etransitivity; [apply Hbest|]. apply IH. left. reflexivity.
    + etransitivity; [apply Hbest|]. apply IH. left. reflexivity.
    + apply IH. right. exact Hin.
Qed.

(** X5: when the history has a valid label, the majority label is one of
    the valid labels of the history and none occurs more often; when it
    has none, the majority label is the sentinel "No Plant Detected". *)
Theorem most_common_is_most_frequent (h : list (string * Q)) :
  (valid_labels h <> [] ->
   In (most_common h) (valid_labels h)
   /\ forall l, In l (valid_labels h) ->
        (count_occ string_dec (valid_labels h) l
         <= count_occ string_dec (valid_labels h) (most_common h))%nat)
  /\ (valid_labels h = [] -> most_common h = NO_PLANT).
Proof.
  unfold most_common. split.
  - intros Hne.
    destruct (set_iter (valid_labels h)) as [|first others] eqn:Hset.
    + exfalso. destruct (valid_labels h) as [|l ls] eqn:Hv; [congruence|].
      assert (Hin : In l (set_iter (l :: ls)))
        by (apply List.nodup_In; left; reflexivity).
      rewrite Hset in Hin. destruct Hin.
    + split.
      * apply (List.nodup_In string_dec). fold (set_iter (valid_labels h)).
        rewrite Hset. apply max_by_In.
      * intros l Hl. apply max_by_ge. rewrite <- Hset.
        apply List.nodup_In. exact Hl.
  - intros ->. reflexivity.
Qed.

Lemma most_common_is_most_frequent_witness :
  (valid_labels [("low (40.0%)", 40%Q); (NO_PLANT, 0%Q); ("low (40.0%)", 40%Q);
                 ("high (80.0%)", 80%Q)] <> [] ->
   In (most_common [("low (40.0%)", 40%Q); (NO_PLANT, 0%Q);
                    ("low (40.0%)", 40%Q); ("high (80.0%)", 80%Q)])
      (valid_labels [("low (40.0%)", 40%Q); (NO_PLANT, 0%Q);
                     ("low (40.0%)", 40%Q); ("high (80.0%)", 80%Q)])
   /\ forall l,
        In l (valid_labels [("low (40.0%)", 40%Q); (NO_PLANT, 0%Q);
                            ("low (40.0%)", 40%Q); ("high (80.0%)", 80%Q)]) ->
        (count_occ string_dec
           (valid_labels [("low (40.0%)", 40%Q); (NO_PLANT, 0%Q);
                          ("low (40.0%)", 40%Q); ("high (80.0%)", 80%Q)]) l
         <= count_occ string_dec
              (valid_labels [("low (40.0%)", 40%Q); (NO_PLANT, 0%Q);
                             ("low (40.0%)", 40%Q); ("high (80.0%)", 80%Q)])
              (most_common [("low (40.0%)", 40%Q); (NO_PLANT, 0%Q);
                            ("low (40.0%)", 40%Q); ("high (80.0%)", 80%Q)]))%nat)
  /\ (valid_labels [("low (40.0%)", 40%Q); (NO_PLANT, 0%Q); ("low (40.0%)", 40%Q);
                    ("high (80.0%)", 80%Q)] = [] ->
      most_common [("low (40.0%)", 40%Q); (NO_PLANT, 0%Q); ("low (40.0%)", 40%Q);
                   ("high (80.0%)", 80%Q)] = NO_PLANT).
Proof.
  exact (most_common_is_most_frequent
           [("low (40.0%)", 40%Q); (NO_PLANT, 0%Q); ("low (40.0%)", 40%Q);
            ("high (80.0%)", 80%Q)]).
Defined.

(** ** Labels that can open the gate *)

Lemma valid_labels_all_misses (h : list (string * Q)) :
  Forall (fun e => fst e = NO_PLANT) h -> valid_labels h = [].
Proof. intros Hh. apply (valid_labels_app_misses [] h Hh). Qed.

(** X6: while every entry of the history is a frame without a plant, the
    stabilizer reports "No Plant Detected", whatever its counter and its
    visibility flag are, and neither gate opens for that label. *)
Theorem no_plant_history_reports_no_plant (st : Stabilizer) (g : Globals) :
  Forall (fun e => fst e = NO_PLANT) (prediction_history st) ->
  label_of (get_stable_prediction st) = NO_PLANT
  /\ conditions_met g (split_first (label_of (get_stable_prediction st)))
     = Ok false
  /\ all_conditions_ok g (split_first (label_of (get_stable_prediction st)))
     = Ok false.
Proof.
  intros Hh.
  assert (Hmc : most_common (prediction_history st) = NO_PLANT).
  { unfold most_common. rewrite valid_labels_all_misses by exact Hh. reflexivity. }
  assert (Hlabel : label_of (get_stable_prediction st) = NO_PLANT).
  { unfold get_stable_prediction, label_of.
    destruct (prediction_history st); [reflexivity|].
    destruct (Qle_bool _ _); [exact Hmc|].
    destruct (_ && _); [exact Hmc|reflexivity]. }
  rewrite Hlabel, conditions_met_value, all_conditions_ok_value.
  split; [reflexivity|]. split; reflexivity.
Qed.

Lemma no_plant_history_reports_no_plant_witness :
  Forall (fun e => fst e = NO_PLANT)
         (prediction_history (mkStabilizer (missed_frames 3) true 2))
  /\ label_of (get_stable_prediction (mkStabilizer (missed_frames 3) true 2))
     = NO_PLANT
  /\ conditions_met dry_cool_globals
       (split_first
          (label_of (get_stable_prediction
                       (mkStabilizer (missed_frames 3) true 2))))
     = Ok false
  /\ all_conditions_ok dry_cool_globals
       (split_first
          (label_of (get_stable_prediction
                       (mkStabilizer (missed_frames 3) true 2))))
     = Ok false.
Proof.
  assert (Hh : Forall (fun e => fst e = NO_PLANT)
                 (prediction_history (mkStabilizer (missed_frames 3) true 2)))
    by (repeat constructor).
  split; [exact Hh|].
  exact (no_plant_history_reports_no_plant
           (mkStabilizer (missed_frames 3) true 2) dry_cool_globals Hh).
Defined.

(** ** A complete run of the motor *)

(** X8: a run of [run_motor_spray] that starts (the severity is in the
    duration table) and then finishes leaves the motor idle with the
    freeze and prompt state cleared, records exactly a start and a
    completion entry, and leaves the sensor readings, the stabilizer, the
    command for the Pi, the detected plant and the force flag untouched;
    a call with a severity that is not in the table does nothing. *)
Theorem motor_run_round_trip severity_level now ts ts' g :
  match run_motor_spray_begin severity_level now ts g with
  | None => spray_durations !! severity_level = None
  | Some (d, g1) =>
      let g2 := run_motor_spray_end d ts' g1 in
      spray_durations !! severity_level = Some d
      /\ motor g2 = mkMotor false false now d false EmptyString
      /\ status_motor (get_status g1) = "ON"
      /\ status_motor (get_status g2) = "OFF"
      /\ sensors g2 = sensors g
      /\ stabilizer g2 = stabilizer g
      /\ command g2 = command g
      /\ latest_plant g2 = latest_plant g
      /\ force_spray_now g2 = force_spray_now g
      /\ get_logs g2
         = deque_append 50
             (mkLogEntry ts' ("Motor OFF — finished " ++ pretty d ++ "s spray")
                         "info")
             (deque_append 50
                (mkLogEntry ts ("Motor ON for " ++ pretty d ++ "s — "
                                ++ upper severity_level ++ " severity")
                            "success")
                (get_logs g))
  end.
Proof.
  unfold run_motor_spray_begin.
  destruct (spray_durations !! severity_level) as [d|]; [|reflexivity].
  cbn. repeat split.
Qed.

(** ** Readings posted to [/dht22] *)

(** X10: the DHT22 sender posts only when both readings were obtained,
    and when the post gets through the server stores both, rounded; when a
    read fails or the post fails the server keeps what it had.  So readings
    that are present on the server stay present through every round of the
    sender. *)
Theorem dht22_client_never_erases (round1 : Q -> Q)
    (humidity temperature : option Q) (sent : bool) (g : Globals) :
  (forall hum temp,
     humidity = Some hum -> temperature = Some temp -> sent = true ->
     latest_humidity
       (sensors (dht22_delivered round1 humidity temperature sent g))
     = Some (round1 hum)
     /\ latest_temperature
          (sensors (dht22_delivered round1 humidity temperature sent g))
        = Some (round1 temp))
  /\ (humidity = None \/ temperature = None ->
      dht22_round round1 humidity temperature = None)
  /\ (humidity = None \/ temperature = None \/ sent = false ->
      dht22_delivered round1 humidity temperature sent g = g)
  /\ (latest_humidity (sensors g) <> None ->
      latest_temperature (sensors g) <> None ->
      latest_humidity
        (sensors (dht22_delivered round1 humidity temperature sent g)) <> None
      /\ latest_temperature
           (sensors (dht22_delivered round1 humidity temperature sent g))
         <> None)
  /\ latest_moisture
       (sensors (dht22_delivered round1 humidity temperature sent g))
     = latest_moisture (sensors g).
Proof.
  assert (Hboth : forall hum temp,
    latest_humidity
      (sensors (dht22_delivered round1 (Some hum) (Some temp) true g))
    = Some (round1 hum)
    /\ latest_temperature
         (sensors (dht22_delivered round1 (Some hum) (Some temp) true g))
       = Some (round1 temp)).
  { intros hum temp. unfold dht22_delivered, dht22_round, handle_dht22_data.
    cbn [sensors set_sensors latest_humidity latest_temperature]. split.
    - rewrite lookup_insert_ne by discriminate. apply lookup_singleton_eq.
    - apply lookup_insert_eq. }
  split; [|split; [|split; [|split]]].
  - intros hum temp -> -> ->. apply Hboth.
  - intros [-> | ->]; unfold dht22_round; [reflexivity|destruct humidity; reflexivity].
  - intros [-> | [-> | ->]]; unfold dht22_delivered, dht22_round;
      [reflexivity|destruct humidity; reflexivity
      |destruct humidity, temperature; reflexivity].
  - intros Hh Ht.
    destruct humidity as [hum|], temperature as [temp|], sent;
      [destruct (Hboth hum temp) as [-> ->]; split; discriminate| | | | | | |];
      unfold dht22_delivered, dht22_round; auto.
  - destruct humidity, temperature, sent; reflexivity.
Qed.

Lemma dht22_client_never_erases_witness :
  (forall hum temp,
     Some (50 # 1) = Some hum -> Some (22 # 1) = Some temp -> true = true ->
     latest_humidity
       (sensors (dht22_delivered (fun x => x) (Some (50 # 1)) (Some (22 # 1))
                                 true initial_globals))
     = Some hum
     /\ latest_temperature
          (sensors (dht22_delivered (fun x => x) (Some (50 # 1))
                                    (Some (22 # 1)) true initial_globals))
        = Some temp)
  /\ (Some (50 # 1) = None \/ Some (22 # 1) = None ->
      dht22_round (fun x => x) (Some (50 # 1)) (Some (22 # 1)) = None)
  /\ (Some (50 # 1) = None \/ Some (22 # 1) = None \/ true = false ->
      dht22_delivered (fun x => x) (Some (50 # 1)) (Some (22 # 1)) true
                      initial_globals
      = initial_globals)
  /\ (latest_humidity (sensors initial_globals) <> None ->
      latest_temperature (sensors initial_globals) <> None ->
      latest_humidity
        (sensors (dht22_delivered (fun x => x) (Some (50 # 1)) (Some (22 # 1))
                                  true initial_globals)) <> None
      /\ latest_temperature
           (sensors (dht22_delivered (fun x => x) (Some (50 # 1))
                                     (Some (22 # 1)) true initial_globals))
         <> None)
  /\ latest_moisture
       (sensors (dht22_delivered (fun x => x) (Some (50 # 1)) (Some (22 # 1))
                                 true initial_globals))
     = latest_moisture (sensors initial_globals).
Proof.
  exact (dht22_client_never_erases (fun x => x) (Some (50 # 1)) (Some (22 # 1))
           true initial_globals).
Defined.

(** ** The Pi client *)

Lemma Qltb_true (x y : Q) : Qltb x y = true <-> (x < y)%Q.
Proof.
  unfold Qltb. rewrite negb_true_iff. split.
  - intros H. apply Qnot_le_lt. intros Hle.
    apply Qle_bool_iff in Hle. congruence.
  - intros Hlt. destruct (Qle_bool y x) eqn:Hle; [|reflexivity].
    apply Qle_bool_iff in Hle. exfalso. apply (Qlt_not_le _ _ Hlt). exact Hle.
Qed.

Lemma Qltb_false (x y : Q) : Qltb x y = false <-> (y <= x)%Q.
Proof.
  unfold Qltb. rewrite negb_false_iff. apply Qle_bool_iff.
Qed.

(** X11: whatever the ADC reads and however the value is rounded, the
    moisture the Pi reports lies between 0 and 100; the server stores
    exactly that value, so the moisture it holds after a poll of the Pi
    is within 0..100. *)
Theorem reported_moisture_in_range (round1 : Q -> Q) (raw_value : Z) ts g :
  (0 <= read_soil_moisture round1 raw_value <= 100)%Q
  /\ exists r g',
       handle_moisture_data
         {[ "moisture" := read_soil_moisture round1 raw_value ]} ts g
       = Ok (r, g')
       /\ latest_moisture (sensors g') = read_soil_moisture round1 raw_value
       /\ (0 <= status_moisture (get_status g') <= 100)%Q.
Proof.
  assert (Hrange : (0 <= read_soil_moisture round1 raw_value <= 100)%Q).
  { unfold read_soil_moisture, py_max, py_min.
    set (m := round1 _).
    destruct (Qltb m 100) eqn:Hmin.
    - apply Qltb_true in Hmin. destruct (Qltb 0 m) eqn:Hmax.
      + apply Qltb_true in Hmax. split; apply Qlt_le_weak; assumption.
      + split; [apply Qle_refl|discriminate].
    - destruct (Qltb 0 100) eqn:Hmax; split; try apply Qle_refl; discriminate. }
  split; [exact Hrange|].
  destruct (handle_moisture_data_value
              {[ "moisture" := read_soil_moisture round1 raw_value ]} ts g)
    as (g' & Heq & _ & Hs & _).
  assert (Hm : latest_moisture (sensors g') = read_soil_moisture round1 raw_value).
  { rewrite Hs. unfold polled. cbn [sensors set_sensors latest_moisture].
    rewrite lookup_singleton_eq. reflexivity. }
  eexists _, g'. split; [exact Heq|]. split; [exact Hm|].
  cbn [get_status status_moisture]. rewrite Hm. exact Hrange.
Qed.

Lemma pump_after_round (round1 : Q -> Q) raw_value post on :
  pump_after on (sensor_and_motor_round round1 raw_value post) = false.
Proof.
  unfold sensor_and_motor_round.
  destruct (post _) as [result|]; [destruct (pi_motor_on result)|]; reflexivity.
Qed.

Lemma pump_on_time_round (round1 : Q -> Q) raw_value post on :
  pump_on_time on (sensor_and_motor_round round1 raw_value post)
  = match post {[ "moisture" := read_soil_moisture round1 raw_value ]} with
    | Some result => pi_run_for result
    | None => 0%Z
    end.
Proof.
  unfold sensor_and_motor_round, pi_run_for.
  destruct (post _) as [result|]; [destruct (pi_motor_on result)|]; cbn; lia.
Qed.

(** X12: a round of the Pi's loop always ends with the pump switched
    off, also when the request fails; polling the server of this
    repository, the pump is on for 0, 2, 3 or 5 seconds in the round, for 3
    seconds when the force flag was set, and not at all when the flag is
    clear and the server lacks a humidity or temperature reading. *)
Theorem pi_round_is_fail_safe (round1 : Q -> Q) raw_value ts g on
    (post : gmap string Q -> option Response) :
  pump_after on (sensor_and_motor_round round1 raw_value post) = false
  /\ (post {[ "moisture" := read_soil_moisture round1 raw_value ]} = None ->
      pump_on_time on (sensor_and_motor_round round1 raw_value post) = 0%Z)
  /\ In (pump_on_time on
           (sensor_and_motor_round round1 raw_value (served_by ts g)))
        [0%Z; 2%Z; 3%Z; 5%Z]
  /\ (force_spray_now g = true ->
      pump_on_time on
        (sensor_and_motor_round round1 raw_value (served_by ts g)) = 3%Z)
  /\ (force_spray_now g = false ->
      latest_humidity (sensors g) = None
      \/ latest_temperature (sensors g) = None ->
      pump_on_time on
        (sensor_and_motor_round round1 raw_value (served_by ts g)) = 0%Z).
Proof.
  split; [apply pump_after_round|]. split.
  { intros Hfail. rewrite pump_on_time_round, Hfail. reflexivity. }
  rewrite pump_on_time_round. unfold served_by.
  destruct (handle_moisture_data_value
              {[ "moisture" := read_soil_moisture round1 raw_value ]} ts g)
    as (g' & Heq & _).
  rewrite Heq. split; [|split].
  - destruct (force_spray_now g); [cbn; tauto|].
    destruct (gate_response_cases
                (polled {[ "moisture" := read_soil_moisture round1 raw_value ]} g))
      as [-> | [-> | [-> | ->]]]; cbn; tauto.
  - intros ->. reflexivity.
  - intros -> Hmissing. unfold gate_response.
    rewrite remote_gate_fails_closed; [reflexivity|exact Hmissing].
Qed.

Lemma pi_round_is_fail_safe_witness :
  pump_after true
    (sensor_and_motor_round (fun x => x) 13000 (fun _ => None)) = false
  /\ ((fun _ : gmap string Q => (None : option Response))
        {[ "moisture" := read_soil_moisture (fun x => x) 13000 ]} = None ->
      pump_on_time true
        (sensor_and_motor_round (fun x => x) 13000 (fun _ => None)) = 0%Z)
  /\ In (pump_on_time true
           (sensor_and_motor_round (fun x => x) 13000
              (served_by "12:00:00" spraying_globals)))
        [0%Z; 2%Z; 3%Z; 5%Z]
  /\ (force_spray_now spraying_globals = true ->
      pump_on_time true
        (sensor_and_motor_round (fun x => x) 13000
           (served_by "12:00:00" spraying_globals)) = 3%Z)
  /\ (force_spray_now spraying_globals = false ->
      latest_humidity (sensors spraying_globals) = None
      \/ latest_temperature (sensors spraying_globals) = None ->
      pump_on_time true
        (sensor_and_motor_round (fun x => x) 13000
           (served_by "12:00:00" spraying_globals)) = 0%Z).
Proof.
  exact (pi_round_is_fail_safe (fun x => x) 13000 "12:00:00" spraying_globals
           true (fun _ => None)).
Defined.

(** ** Force requests *)

Lemma gate_response_depends (g1 g2 : Globals) :
  latest_plant g1 = latest_plant g2 ->
  sensors g1 = sensors g2 ->
  gate_response g1 = gate_response g2.
Proof.
  intros Hp Hs. unfold gate_response, remote_gate. rewrite Hp, Hs. reflexivity.
Qed.

Lemma trigger_force_spray_many tss g :
  let g0 := fold_left (fun g t => trigger_force_spray t g) tss g in
  sensors g0 = sensors g
  /\ latest_plant g0 = latest_plant g
  /\ (tss <> [] -> force_spray_now g0 = true).
Proof.
  cbv zeta. revert g. induction tss as [|t tss IH]; intros g.
  - cbn. repeat split. congruence.
  - cbn [fold_left]. destruct (IH (trigger_force_spray t g)) as (Hs & Hp & Hf).
    rewrite Hs, Hp. repeat split. intros _.
    destruct tss as [|t' tss']; [reflexivity|]. apply Hf. discriminate.
Qed.

(** X13: any number of force requests before a poll makes one forced
    answer: the next call of [/process] answers RUN for 3 seconds, and the
    call after it answers what the gate evaluates to, exactly as if no
    force request had been made. *)
Theorem force_requests_fire_once (tss : list string) data ts data2 ts2 g :
  tss <> [] ->
  exists g1 g2,
    handle_moisture_data data ts
      (fold_left (fun g t => trigger_force_spray t g) tss g)
    = Ok (mkResponse "RUN" 3, g1)
    /\ handle_moisture_data data2 ts2 g1
       = Ok (gate_response (polled data2 g), g2)
    /\ force_spray_now g2 = false.
Proof.
  intros Hne.
  destruct (trigger_force_spray_many tss g) as (Hs & Hp & Hf).
  specialize (Hf Hne).
  set (g0 := fold_left (fun g t => trigger_force_spray t g) tss g) in *.
  destruct (handle_moisture_data_value data ts g0)
    as (g1 & Heq1 & Hf1 & Hs1 & Hp1 & _).
  rewrite Hf in Heq1.
  destruct (handle_moisture_data_value data2 ts2 g1)
    as (g2 & Heq2 & Hf2 & _).
  rewrite Hf1 in Heq2.
  exists g1, g2. split; [exact Heq1|]. split; [|exact Hf2].
  rewrite Heq2. f_equal. f_equal. apply gate_response_depends.
  - cbn. rewrite Hp1, Hp. reflexivity.
  - cbn. rewrite Hs1. cbn. rewrite Hs. reflexivity.
Qed.

Lemma force_requests_fire_once_witness :
  ["12:00:00"; "12:00:01"] <> []
  /\ exists g1 g2,
    handle_moisture_data {[ "moisture" := 35%Q ]} "12:00:02"
      (fold_left (fun g t => trigger_force_spray t g)
                 ["12:00:00"; "12:00:01"] healthy_globals)
    = Ok (mkResponse "RUN" 3, g1)
    /\ handle_moisture_data {[ "moisture" := 35%Q ]} "12:00:03" g1
       = Ok (gate_response (polled {[ "moisture" := 35%Q ]} healthy_globals), g2)
    /\ force_spray_now g2 = false.
Proof.
  split; [discriminate|].
  apply (force_requests_fire_once ["12:00:00"; "12:00:01"]
           {[ "moisture" := 35%Q ]} "12:00:02" {[ "moisture" := 35%Q ]}
           "12:00:03" healthy_globals).
  discriminate.
Defined.

(** ** [/status] after posts *)

(** X15: after a POST to [/dht22] and a POST to [/process], [/status]
    reports the temperature and humidity of the first body ([None] for a
    missing key) and the moisture of the second (0.0 when missing); neither
    handler changes the reading stored by the other, nor the reported plant
    or motor state. *)
Theorem status_reports_posted_readings (dht data : gmap string Q) ts g :
  exists r g',
    handle_moisture_data data ts (handle_dht22_data dht g) = Ok (r, g')
    /\ status_temperature (get_status g') = dht !! "temperature"
    /\ status_humidity (get_status g') = dht !! "humidity"
    /\ status_moisture (get_status g') = default 0%Q (data !! "moisture")
    /\ status_moisture (get_status (handle_dht22_data dht g))
       = status_moisture (get_status g)
    /\ status_plant (get_status g') = status_plant (get_status g)
    /\ status_confidence (get_status g') = status_confidence (get_status g)
    /\ status_motor (get_status g') = status_motor (get_status g).
Proof.
  destruct (handle_moisture_data_value data ts (handle_dht22_data dht g))
    as (g' & Heq & _ & Hs & Hp & Hm & _).
  eexists _, g'. split; [exact Heq|].
  unfold get_status. cbn [status_temperature status_humidity status_moisture
                           status_plant status_confidence status_motor].
  rewrite Hs, Hp, Hm. cbn. repeat split.
Qed.

(** X16: [/process] records a decision in the activity log exactly when
    it answers RUN: a RUN answer adds one entry stamped with the time of the
    call (level "warning" when forced, "success" otherwise), a STOP answer
    adds none. *)
Theorem process_logs_run_answers data ts g :
  exists r g',
    handle_moisture_data data ts g = Ok (r, g')
    /\ (motor_command r = "STOP" -> get_logs g' = get_logs g)
    /\ (motor_command r = "RUN" ->
        exists msg level,
          get_logs g' = deque_append 50 (mkLogEntry ts msg level) (get_logs g)
          /\ last (get_logs g') = Some (mkLogEntry ts msg level)
          /\ (level = if force_spray_now g then "warning" else "success")).
Proof.
  unfold get_logs, handle_moisture_data. fold (polled data g).
  change (force_spray_now (polled data g)) with (force_spray_now g).
  destruct (force_spray_now g).
  - cbn. eexists _, _. split; [reflexivity|]. cbn. split; [discriminate|].
    intros _. eexists _, _. split; [reflexivity|].
    split; [apply deque_append_last; lia|reflexivity].
  - rewrite all_conditions_ok_value. destruct (remote_gate _ _) eqn:Hgate.
    + assert (Hc : contains spray_durations
                     (split_first (label (latest_plant (polled data g)))) = true).
      { unfold remote_gate in Hgate. rewrite !andb_true_iff in Hgate. tauto. }
      destruct (contains_spray_durations _ Hc) as (d & _ & Hget).
      cbn [mbind Exc_bind]. rewrite Hget. cbn.
      eexists _, _. split; [reflexivity|]. cbn. split; [discriminate|].
      intros _. eexists _, _. split; [reflexivity|].
      split; [apply deque_append_last; lia|reflexivity].
    + cbn. eexists _, _. split; [reflexivity|]. cbn.
      split; [reflexivity|discriminate].
Qed.

Lemma process_logs_run_answers_witness :
  exists r g',
    handle_moisture_data {[ "moisture" := 35%Q ]} "12:00:01" spraying_globals
    = Ok (r, g')
    /\ (motor_command r = "STOP" -> get_logs g' = get_logs spraying_globals)
    /\ (motor_command r = "RUN" ->
        exists msg level,
          get_logs g'
          = deque_append 50 (mkLogEntry "12:00:01" msg level)
                         (get_logs spraying_globals)
          /\ last (get_logs g') = Some (mkLogEntry "12:00:01" msg level)
          /\ (level = if force_spray_now spraying_globals
                      then "warning" else "success")).
Proof.
  exact (process_logs_run_answers {[ "moisture" := 35%Q ]} "12:00:01"
           spraying_globals).
Defined.

(** ** Geometry of the targeting box *)

(** X17: the targeting box is a square of side [crop_size], centred in
    the frame up to the rounding of the floor division; it lies inside
    the frame when the frame is at least as large as the box, it contains
    the centre of the crosshair, and for the default size it is the very
    region that the processing loop crops for the models. *)
Theorem targeting_box_is_centred (h w crop_size : Z) :
  let '(x1, y1, x2, y2) := draw_targeting_box h w crop_size in
  let '(cx, cy) := crosshair_center h w in
  (x2 - x1 = crop_size)%Z /\ (y2 - y1 = crop_size)%Z
  /\ (0 <= w - (x1 + x2) <= 1)%Z /\ (0 <= h - (y1 + y2) <= 1)%Z
  /\ ((0 <= crop_size <= w)%Z -> (0 <= x1 /\ x2 <= w)%Z)
  /\ ((0 <= crop_size <= h)%Z -> (0 <= y1 /\ y2 <= h)%Z)
  /\ ((0 <= crop_size)%Z -> (x1 <= cx <= x2 /\ y1 <= cy <= y2)%Z)
  /\ draw_targeting_box h w CROP_SIZE = crop_region h w.
Proof.
  unfold draw_targeting_box, crosshair_center, crop_region. cbv zeta.
  pose proof (Z.div_mod (w - crop_size) 2 ltac:(lia)) as Hw.
  pose proof (Z.mod_pos_bound (w - crop_size) 2 ltac:(lia)) as Hw'.
  pose proof (Z.div_mod (h - crop_size) 2 ltac:(lia)) as Hh.
  pose proof (Z.mod_pos_bound (h - crop_size) 2 ltac:(lia)) as Hh'.
  pose proof (Z.div_mod w 2 ltac:(lia)) as Hcx.
  pose proof (Z.mod_pos_bound w 2 ltac:(lia)) as Hcx'.
  pose proof (Z.div_mod h 2 ltac:(lia)) as Hcy.
  pose proof (Z.mod_pos_bound h 2 ltac:(lia)) as Hcy'.
  repeat split; try reflexivity; try lia.
Qed.

Lemma targeting_box_is_centred_witness :
  let '(x1, y1, x2, y2) := draw_targeting_box 720 1280 300 in
  let '(cx, cy) := crosshair_center 720 1280 in
  (x2 - x1 = 300)%Z /\ (y2 - y1 = 300)%Z
  /\ (0 <= 1280 - (x1 + x2) <= 1)%Z /\ (0 <= 720 - (y1 + y2) <= 1)%Z
  /\ ((0 <= 300 <= 1280)%Z -> (0 <= x1 /\ x2 <= 1280)%Z)
  /\ ((0 <= 300 <= 720)%Z -> (0 <= y1 /\ y2 <= 720)%Z)
  /\ ((0 <= 300)%Z -> (x1 <= cx <= x2 /\ y1 <= cy <= y2)%Z)
  /\ draw_targeting_box 720 1280 CROP_SIZE = crop_region 720 1280.
Proof.
  exact (targeting_box_is_centred 720 1280 300).
Defined.

Lemma range_from_In (fuel : nat) (start stop step i : Z) :
  (0 < step)%Z ->
  In i (range_from fuel start stop step) ->
  exists k, (0 <= k)%Z /\ i = (start + k * step)%Z /\ (i < stop)%Z.
Proof.
  intros Hstep. revert start.
  induction fuel as [|fuel IH]; intros start Hin; [destruct Hin|].
  cbn [range_from] in Hin.
  destruct (start <? stop)%Z eqn:Hlt; [|destruct Hin].
  apply Z.ltb_lt in Hlt. destruct Hin as [<- | Hin].
  - exists 0%Z. lia.
  - destruct (IH _ Hin) as (k & Hk & -> & Hlt').
    exists (k + 1)%Z. lia.
Qed.

Lemma range_from_complete (fuel : nat) (start stop step : Z) (k : Z) :
  (0 < step)%Z -> (0 <= k)%Z -> (start + k * step < stop)%Z ->
  (Z.to_nat (stop - start) <= fuel)%nat ->
  In (start + k * step)%Z (range_from fuel start stop step).
Proof.
  intros Hstep Hk. revert start fuel.
  pattern k. apply natlike_ind; [| |exact Hk].
  - intros start fuel Hlt Hfuel. destruct fuel as [|fuel]; [lia|].
    cbn [range_from]. assert (Hs : (start <? stop)%Z = true) by (apply Z.ltb_lt; lia).
    rewrite Hs. left. lia.
  - intros j Hj IH start fuel Hlt Hfuel. destruct fuel as [|fuel]; [lia|].
    cbn [range_from]. assert (Hs : (start <? stop)%Z = true) by (apply Z.ltb_lt; nia).
    rewrite Hs. right.
    replace (start + Z.succ j * step)%Z with ((start + step) + j * step)%Z by lia.
    apply IH; lia.
Qed.

(** X18: when the side of an edge is a multiple of the dash gap (as the
    default 300 is of 20), every dash drawn along the edge from [a] to [b]
    starts after [a], is [dash_gap] long and ends at or before [b]; the
    dashes start at [a + 20], [a + 60], [a + 100], ... and none that would
    fit is left out. *)
Theorem edge_dashes_stay_on_edge (a b m : Z) :
  (b - a = dash_gap * m)%Z ->
  (forall i j, In (i, j) (edge_dashes a b) ->
     (a < i)%Z /\ j = (i + dash_gap)%Z /\ (j <= b)%Z
     /\ exists k, (0 <= k)%Z /\ i = (a + dash_gap + k * (dash_gap * 2))%Z)
  /\ (forall k, (0 <= k)%Z -> (a + dash_gap + k * (dash_gap * 2) < b)%Z ->
        In ((a + dash_gap + k * (dash_gap * 2))%Z,
            (a + dash_gap + k * (dash_gap * 2) + dash_gap)%Z)
           (edge_dashes a b)).
Proof.
  intros Hside. unfold edge_dashes, py_range. split.
  - intros i j Hin. apply in_map_iff in Hin.
    destruct Hin as (i' & [= <- <-] & Hin).
    apply range_from_In in Hin; [|unfold dash_gap; lia].
    destruct Hin as (k & Hk & Hi & Hlt). unfold dash_gap in *.
    repeat split; try lia. exists k. split; [exact Hk|exact Hi].
  - intros k Hk Hlt. apply in_map_iff.
    exists (a + dash_gap + k * (dash_gap * 2))%Z. split; [reflexivity|].
    apply range_from_complete; [unfold dash_gap; lia|exact Hk|exact Hlt|lia].
Qed.

Lemma edge_dashes_stay_on_edge_witness :
  (790 - 490 = dash_gap * 15)%Z
  /\ (forall i j, In (i, j) (edge_dashes 490 790) ->
        (490 < i)%Z /\ j = (i + dash_gap)%Z /\ (j <= 790)%Z
        /\ exists k, (0 <= k)%Z /\ i = (490 + dash_gap + k * (dash_gap * 2))%Z)
  /\ (forall k, (0 <= k)%Z -> (490 + dash_gap + k * (dash_gap * 2) < 790)%Z ->
        In ((490 + dash_gap + k * (dash_gap * 2))%Z,
            (490 + dash_gap + k * (dash_gap * 2) + dash_gap)%Z)
           (edge_dashes 490 790)).
Proof.
  split; [reflexivity|].
  apply (edge_dashes_stay_on_edge 490 790 15). reflexivity.
Defined.

(** ** Bounded deques keep the most recent items *)

Lemma deque_append_many {A} (n : nat) (xs d : list A) :
  (0 < n)%nat -> (length d <= n)%nat ->
  fold_left (fun d x => deque_append n x d) xs d
  = drop (length d + length xs - n) (d ++ xs)%list.
Proof.
  intros Hn. revert d. induction xs as [|x xs IH]; intros d Hd.
  - cbn. rewrite app_nil_r, Nat.add_0_r.
    replace (length d - n)%nat with 0%nat by lia. reflexivity.
  - cbn [fold_left]. rewrite IH by (apply deque_append_length; assumption).
    unfold deque_append. rewrite length_app. cbn [length].
    destruct (n <? length d + 1)%nat eqn:Hfull.
    + apply Nat.ltb_lt in Hfull. assert (Hlen : length d = n) by lia.
      destruct d as [|y d']; [cbn in Hlen; lia|].
      cbn [app tail length] in *. rewrite length_app. cbn [length].
      replace (S (length d') + S (length xs) - n)%nat
        with (S (length d' + 1 + length xs - n)) by lia.
      cbn [drop]. rewrite <- app_assoc. reflexivity.
    + apply Nat.ltb_ge in Hfull. rewrite length_app. cbn [length].
      rewrite <- app_assoc. cbn [app].
      replace (length d + 1 + length xs - n)%nat
        with (length d + S (length xs) - n)%nat by lia.
      reflexivity.
Qed.

(** X19: after any sequence of classifications fed since start-up, the
    prediction history consists of the last 20 of them, oldest first. *)
Theorem history_is_last_twenty (cs : list (string * Q)) :
  prediction_history (feed_all cs initial_stabilizer)
  = drop (length cs - HISTORY_SIZE) cs
  /\ length (prediction_history (feed_all cs initial_stabilizer))
     = Nat.min (length cs) HISTORY_SIZE.
Proof.
  assert (Hfold : forall st,
            prediction_history (feed_all cs st)
            = fold_left (fun d x => deque_append HISTORY_SIZE x d) cs
                        (prediction_history st)).
  { induction cs as [|c cs IH]; intros st; [reflexivity|].
    cbn [feed_all fold_left]. fold (feed_all cs (snd (stabilize c st))).
    rewrite IH, stabilize_history. reflexivity. }
  assert (Heq : prediction_history (feed_all cs initial_stabilizer)
                = drop (length cs - HISTORY_SIZE) cs).
  { rewrite Hfold, deque_append_many; [reflexivity|unfold HISTORY_SIZE; lia|cbn; lia]. }
  split; [exact Heq|]. rewrite Heq, length_drop. lia.
Qed.

(** X20: the activity log is a ring of 50 entries: after any sequence of
    events recorded with [log_event], [/logs] returns the most recent 50
    entries of the old log followed by the new events, oldest first. *)
Theorem log_keeps_last_fifty (events : list (string * string * string)) g :
  (length (get_logs g) <= 50)%nat ->
  get_logs (log_all events g)
  = drop (length (get_logs g) + length events - 50)
         (get_logs g ++ map entry_of events)%list
  /\ (length (get_logs (log_all events g)) <= 50)%nat
  /\ (events <> [] ->
      last (get_logs (log_all events g)) = last (map entry_of events)).
Proof.
  intros Hlen. unfold get_logs in *.
  assert (Hfold : forall g0,
            activity_log (log_all events g0)
            = fold_left (fun d x => deque_append 50 x d) (map entry_of events)
                        (activity_log g0)).
  { unfold log_all. induction events as [|[[ts msg] level] events IH];
      intros g0; [reflexivity|].
    cbn [fold_left map]. rewrite IH. reflexivity. }
  assert (Heq : activity_log (log_all events g)
                = drop (length (activity_log g) + length events - 50)
                       (activity_log g ++ map entry_of events)%list).
  { rewrite Hfold, deque_append_many by (lia || exact Hlen).
    rewrite length_map. reflexivity. }
  split; [exact Heq|]. split.
  - rewrite Heq, length_drop, length_app, length_map. lia.
  - intros Hne. destruct events as [|e events] using rev_ind; [congruence|].
    clear IHevents. unfold log_all. rewrite fold_left_app. cbn [fold_left].
    destruct e as [[ts msg] level]. rewrite map_app. cbn [map entry_of].
    rewrite last_snoc. apply deque_append_last. lia.
Qed.

Lemma log_keeps_last_fifty_witness :
  (length (get_logs spraying_globals) <= 50)%nat
  /\ get_logs (log_all [("12:00:05", "Motor OFF", "info")] spraying_globals)
     = drop (length (get_logs spraying_globals)
             + length [("12:00:05", "Motor OFF", "info")] - 50)
            (get_logs spraying_globals
             ++ map entry_of [("12:00:05", "Motor OFF", "info")])%list
  /\ (length (get_logs (log_all [("12:00:05", "Motor OFF", "info")]
                                spraying_globals)) <= 50)%nat
  /\ ([("12:00:05", "Motor OFF", "info")] <> [] ->
      last (get_logs (log_all [("12:00:05", "Motor OFF", "info")]
                              spraying_globals))
      = last (map entry_of [("12:00:05", "Motor OFF", "info")])).
Proof.
  assert (Hlen : (length (get_logs spraying_globals) <= 50)%nat)
    by (vm_compute; lia).
  split; [exact Hlen|].
  exact (log_keeps_last_fifty [("12:00:05", "Motor OFF", "info")]
           spraying_globals Hlen).
Defined.

(** * Readings of any JSON type *)

(** ** The typed model is the restriction to well-typed readings *)

Lemma conditions_met_raw_typed g detected_severity :
  conditions_met_raw (readings_of g) g detected_severity
  = conditions_met g detected_severity.
Proof.
  unfold conditions_met_raw, conditions_met, readings_of.
  cbn [moisture_value humidity_value temperature_value].
  destruct (latest_humidity (sensors g)), (latest_temperature (sensors g));
    reflexivity.
Qed.

Lemma all_conditions_ok_raw_typed g plant_label :
  all_conditions_ok_raw (readings_of g) plant_label
  = all_conditions_ok g plant_label.
Proof.
  unfold all_conditions_ok_raw, all_conditions_ok, readings_of.
  cbn [moisture_value humidity_value temperature_value].
  destruct (latest_humidity (sensors g)), (latest_temperature (sensors g));
    reflexivity.
Qed.

(** On a body of numbers and typed readings, [/process] answers in the
    untyped model what it answers in the typed one. *)
Lemma handle_moisture_data_raw_typed (data : gmap string Q) ts g :
  exists r g',
    handle_moisture_data data ts g = Ok (r, g')
    /\ handle_moisture_data_raw (VNum <$> data) ts (readings_of g) g
       = (readings_of g', set_sensors (sensors g) g', Ok r).
Proof.
  unfold handle_moisture_data_raw, handle_moisture_data.
  rewrite lookup_fmap. fold (polled data g).
  change (force_spray_now (polled data g)) with (force_spray_now g).
  change (latest_plant (polled data g)) with (latest_plant g).
  assert (Hrd : mkRawSensors
                  (default (VNum 0) (VNum <$> data !! "moisture"))
                  (temperature_value (readings_of g))
                  (humidity_value (readings_of g))
                = readings_of (polled data g)).
  { unfold readings_of, polled. cbn. destruct (data !! "moisture"); reflexivity. }
  rewrite Hrd. destruct (force_spray_now g).
  - eexists _, _. split; reflexivity.
  - rewrite all_conditions_ok_raw_typed, all_conditions_ok_value.
    change (latest_plant (polled data g)) with (latest_plant g).
    destruct (remote_gate _ _) eqn:Hgate.
    + assert (Hc : contains spray_durations
                     (split_first (label (latest_plant g))) = true).
      { unfold remote_gate in Hgate. rewrite !andb_true_iff in Hgate. tauto. }
      destruct (contains_spray_durations _ Hc) as (d & _ & Hget).
      cbn [mbind Exc_bind]. rewrite Hget.
      eexists _, _. split; reflexivity.
    + eexists _, _. split; reflexivity.
Qed.

(** ** Missing humidity or temperature *)

Lemma conditions_met_raw_closed rd g sev :
  humidity_value rd = VNone \/ temperature_value rd = VNone ->
  conditions_met_raw rd g sev <> Ok true
  /\ (is_number (moisture_value rd) = true ->
      number_or_None (humidity_value rd) = true ->
      conditions_met_raw rd g sev = Ok false).
Proof.
  unfold conditions_met_raw. intros Hmissing.
  destruct (contains spray_durations sev);
    destruct (moisture_value rd) as [|m|]; cbn;
    try destruct (Qltb m MOISTURE_LIMIT); cbn;
    destruct (humidity_value rd) as [|hum|]; cbn;
    try destruct (Qltb hum HUMIDITY_LIMIT); cbn;
    destruct (temperature_value rd) as [|temp|]; cbn;
    try destruct (Qltb temp TEMP_LIMIT); cbn;
    try (destruct Hmissing; discriminate);
    (split; [discriminate|intros; first [reflexivity|discriminate]]).
Qed.

Lemma all_conditions_ok_raw_closed rd plant_label :
  humidity_value rd = VNone \/ temperature_value rd = VNone ->
  all_conditions_ok_raw rd plant_label <> Ok true
  /\ (is_number (moisture_value rd) = true ->
      number_or_None (humidity_value rd) = true ->
      all_conditions_ok_raw rd plant_label = Ok false).
Proof.
  unfold all_conditions_ok_raw. intros Hmissing.
  destruct (contains spray_durations plant_label);
    destruct (negb (String.eqb plant_label NO_PLANT));
    destruct (moisture_value rd) as [|m|]; cbn;
    try destruct (Qltb m MOISTURE_LIMIT); cbn;
    destruct (humidity_value rd) as [|hum|]; cbn;
    try destruct (Qltb hum HUMIDITY_LIMIT); cbn;
    destruct (temperature_value rd) as [|temp|]; cbn;
    try destruct (Qltb temp TEMP_LIMIT); cbn;
    try (destruct Hmissing; discriminate);
    (split; [discriminate|intros; first [reflexivity|discriminate]]).
Qed.

(** With humidity or temperature missing and the force flag clear,
    [/process] never answers RUN; it answers STOP when the posted moisture
    is a number (or absent) and the stored humidity is a number or
    [None]. *)
Lemma handle_moisture_data_raw_closed data ts rd g :
  humidity_value rd = VNone \/ temperature_value rd = VNone ->
  force_spray_now g = false ->
  (forall r, snd (handle_moisture_data_raw data ts rd g) = Ok r ->
     r = mkResponse "STOP" 0)
  /\ (posts_number data = true ->
      number_or_None (humidity_value rd) = true ->
      snd (handle_moisture_data_raw data ts rd g) = Ok (mkResponse "STOP" 0)).
Proof.
  intros Hmissing Hforce. unfold handle_moisture_data_raw, posts_number.
  rewrite Hforce.
  set (rd' := mkRawSensors _ _ _).
  destruct (all_conditions_ok_raw_closed rd'
              (split_first (label (latest_plant g))) Hmissing) as [Hnot Htyped].
  destruct (all_conditions_ok_raw rd' _) as [[|]|e] eqn:Hgate.
  - congruence.
  - cbn. split; [intros r [= <-]; reflexivity|reflexivity].
  - cbn. split; [discriminate|].
    intros Hnum Hhum. specialize (Htyped Hnum Hhum). discriminate.
Qed.

Lemma conditions_met_raw_total rd g sev :
  is_number (moisture_value rd) = true ->
  number_or_None (humidity_value rd) = true ->
  number_or_None (temperature_value rd) = true ->
  exists b, conditions_met_raw rd g sev = Ok b.
Proof.
  unfold conditions_met_raw. intros Hm Hh Ht.
  destruct (contains spray_durations sev);
    destruct (moisture_value rd) as [|m|]; try discriminate; cbn;
    try destruct (Qltb m MOISTURE_LIMIT); cbn;
    destruct (humidity_value rd) as [|hum|]; try discriminate; cbn;
    try destruct (Qltb hum HUMIDITY_LIMIT); cbn;
    destruct (temperature_value rd) as [|temp|]; try discriminate; cbn;
    try destruct (Qltb temp TEMP_LIMIT); cbn; eauto.
Qed.

(** C3, counterexample: at start-up (no humidity, no temperature), with
    the stabilizer reporting "high (90.0%)" and the force flag clear, a
    POST to [/process] with body {"moisture": null} does not answer STOP:
    the comparison of the moisture with its limit comes before the
    [is not None] guards and raises [TypeError].  The [None] stays stored,
    and the gate of the processing loop raises on it as well, which ends
    the loop. *)
Lemma null_moisture_raises_before_guards :
  humidity_value initial_readings = VNone
  /\ temperature_value initial_readings = VNone
  /\ force_spray_now (globals unit_system_no_dht) = false
  /\ snd (handle_moisture_data_raw {[ "moisture" := VNone ]} "12:00:00"
            initial_readings (globals unit_system_no_dht))
     = Raise TypeError
  /\ moisture_value
       (fst (fst (handle_moisture_data_raw {[ "moisture" := VNone ]} "12:00:00"
                    initial_readings (globals unit_system_no_dht))))
     = VNone
  /\ conditions_met_raw
       (fst (fst (handle_moisture_data_raw {[ "moisture" := VNone ]} "12:00:00"
                    initial_readings (globals unit_system_no_dht))))
       (globals unit_system_no_dht) "high"
     = Raise TypeError
  /\ snd (process_frames_iteration_raw sick_plant_binary sick_plant_severity
            sick_plant_format
            (fst (fst (handle_moisture_data_raw {[ "moisture" := VNone ]}
                         "12:00:00" initial_readings
                         (globals unit_system_no_dht))))
            unit_system_no_dht)
     = Raise TypeError.
Proof. repeat split; vm_compute; reflexivity. Qed.

Section RawGate.

Context {Frame : Type}.
Variable binary_model : Frame -> Q.
Variable severity_model : Frame -> SeverityClass * Q.
Variable format_1f : Q -> string.

Local Abbreviation iteration_raw :=
  (process_frames_iteration_raw binary_model severity_model format_1f).

(** C3, amended: when the stored humidity or the stored temperature is
    [None], the gate never allows: with the force flag clear [/process]
    gives no answer other than STOP with duration 0, the gate of the
    processing loop never evaluates to true and an iteration of the loop
    starts no spray thread.  When moreover the readings have the types of
    the data model -- the stored humidity is a number or [None], the
    moisture posted (for [/process]) or stored (for the loop) is a number
    -- no exception is raised: [/process] answers STOP, the gate of the
    loop evaluates to false and the iteration completes. *)
Theorem missing_reading_never_allows (rd : RawSensors) (s : System Frame)
    (data : gmap string Value) ts :
  humidity_value rd = VNone \/ temperature_value rd = VNone ->
  (force_spray_now (globals s) = false ->
   forall r, snd (handle_moisture_data_raw data ts rd (globals s)) = Ok r ->
     r = mkResponse "STOP" 0)
  /\ (forall sev, conditions_met_raw rd (globals s) sev <> Ok true)
  /\ spray_threads (fst (iteration_raw rd s)) = spray_threads s
  /\ (number_or_None (humidity_value rd) = true ->
      (force_spray_now (globals s) = false -> posts_number data = true ->
       snd (handle_moisture_data_raw data ts rd (globals s))
       = Ok (mkResponse "STOP" 0))
      /\ (is_number (moisture_value rd) = true ->
          (forall sev, conditions_met_raw rd (globals s) sev = Ok false)
          /\ snd (iteration_raw rd s) = Ok tt)).
Proof.
  intros Hmissing.
  assert (Hiter : spray_threads (fst (iteration_raw rd s)) = spray_threads s
                  /\ (is_number (moisture_value rd) = true ->
                      number_or_None (humidity_value rd) = true ->
                      snd (iteration_raw rd s) = Ok tt)).
  { unfold process_frames_iteration_raw.
    destruct (raw_frame_queue s) as [|frame rest]; cbn [Channel.try_take];
      [split; reflexivity|].
    destruct (stabilize _ _) as [[[stable_label label_color] stable_conf] st].
    match goal with
    | |- context [conditions_met_raw rd ?g ?sev] =>
        destruct (conditions_met_raw_closed rd g sev Hmissing) as [Hnot Htyped];
        destruct (conditions_met_raw rd g sev) as [[|]|e] eqn:Hgate
    end.
    - congruence.
    - split; reflexivity.
    - split; [reflexivity|]. intros Hm Hh. specialize (Htyped Hm Hh). discriminate. }
  split; [|split; [|split; [|split]]].
  - intros Hforce.
    apply (handle_moisture_data_raw_closed data ts rd (globals s) Hmissing Hforce).
  - intros sev. apply (conditions_met_raw_closed rd (globals s) sev Hmissing).
  - apply Hiter.
  - intros Hforce Hposts.
    apply (handle_moisture_data_raw_closed data ts rd (globals s) Hmissing Hforce);
      assumption.
  - intros Hm. split.
    + intros sev.
      apply (conditions_met_raw_closed rd (globals s) sev Hmissing); assumption.
    + apply Hiter; assumption.
Qed.

(** X3: state left by one iteration of the processing loop on a frame.
    The frame is consumed.  When the iteration completes, the newest item
    of the output queue, which the MJPEG stream reads, is the one rendered
    for that frame, and it carries the label and the confidence that the
    iteration stored in [latest_plant] for [/status].  When the gate raises,
    [latest_plant] has already been written but nothing is appended: the
    output queue is as it was. *)
Theorem completed_iteration_publishes_status (rd : RawSensors)
    (s : System Frame) frame rest :
  raw_frame_queue s = frame :: rest ->
  raw_frame_queue (fst (iteration_raw rd s)) = rest
  /\ latest_plant (globals (fst (iteration_raw rd s)))
     = mkPlant
         (label_of (stabilize (classify binary_model severity_model format_1f frame)
                              (stabilizer (globals s))))
         (smoothed_of (stabilize (classify binary_model severity_model format_1f frame)
                                 (stabilizer (globals s))))
  /\ (snd (iteration_raw rd s) = Ok tt ->
      exists col,
        Channel.peek (processed_frame_queue (fst (iteration_raw rd s)))
        = Some (status_plant (get_status (globals (fst (iteration_raw rd s)))),
                col,
                status_confidence
                  (get_status (globals (fst (iteration_raw rd s)))),
                frame))
  /\ (forall e, snd (iteration_raw rd s) = Raise e ->
      processed_frame_queue (fst (iteration_raw rd s))
      = processed_frame_queue s).
Proof.
  unfold process_frames_iteration_raw, label_of, smoothed_of. intros Hq.
  rewrite Hq. cbn [Channel.try_take].
  destruct (stabilize _ _) as [[[stable_label label_color] stable_conf] st].
  match goal with
  | |- context [conditions_met_raw rd ?g ?sev] =>
      destruct (conditions_met_raw rd g sev) as [met|e]
  end; cbn.
  - split; [reflexivity|]. split; [reflexivity|]. split; [|discriminate].
    intros _. exists label_color.
    unfold Channel.peek, Channel.put. apply deque_append_last. lia.
  - split; [reflexivity|]. split; [reflexivity|]. split; [discriminate|].
    reflexivity.
Qed.

(** X14: an iteration of the processing loop, whether it completes or
    raises, leaves the force flag, the motor state, the command kept for
    the Pi and the activity log as they were; its outcome, the threads it
    starts and the plant it reports do not depend on the force flag (the
    local loop never consumes a force request).  It completes whenever the
    stored moisture is a number and the stored humidity and temperature are
    numbers or [None]. *)
Theorem processing_loop_footprint (rd : RawSensors) (s : System Frame)
    (flag : bool) :
  force_spray_now (globals (fst (iteration_raw rd s)))
  = force_spray_now (globals s)
  /\ motor (globals (fst (iteration_raw rd s))) = motor (globals s)
  /\ command (globals (fst (iteration_raw rd s))) = command (globals s)
  /\ activity_log (globals (fst (iteration_raw rd s)))
     = activity_log (globals s)
  /\ snd (iteration_raw rd
            (with_globals (set_force_spray_now flag (globals s)) s))
     = snd (iteration_raw rd s)
  /\ spray_threads
       (fst (iteration_raw rd
               (with_globals (set_force_spray_now flag (globals s)) s)))
     = spray_threads (fst (iteration_raw rd s))
  /\ latest_plant
       (globals
          (fst (iteration_raw rd
                  (with_globals (set_force_spray_now flag (globals s)) s))))
     = latest_plant (globals (fst (iteration_raw rd s)))
  /\ (is_number (moisture_value rd) = true ->
      number_or_None (humidity_value rd) = true ->
      number_or_None (temperature_value rd) = true ->
      snd (iteration_raw rd s) = Ok tt).
Proof.
  unfold process_frames_iteration_raw.
  cbn [with_globals raw_frame_queue globals stabilizer set_force_spray_now
       processed_frame_queue spray_threads].
  destruct (raw_frame_queue s) as [|frame rest]; cbn [Channel.try_take];
    [repeat split|].
  destruct (stabilize _ _) as [[[stable_label label_color] stable_conf] st].
  change (conditions_met_raw rd
            (set_latest_plant (mkPlant stable_label stable_conf)
               (set_stabilizer st (set_force_spray_now flag (globals s))))
            (split_first stable_label))
    with (conditions_met_raw rd
            (set_latest_plant (mkPlant stable_label stable_conf)
               (set_stabilizer st (globals s)))
            (split_first stable_label)).
  match goal with
  | |- context [conditions_met_raw rd ?g ?sev] =>
      pose proof (conditions_met_raw_total rd g sev) as Htotal;
      destruct (conditions_met_raw rd g sev) as [met|e]
  end.
  - cbn. repeat split.
  - cbn. repeat split. intros Hm Hh Ht.
    destruct (Htotal Hm Hh Ht) as [b Hb]. discriminate.
Qed.

End RawGate.

Lemma missing_reading_never_allows_witness :
  (humidity_value initial_readings = VNone
   \/ temperature_value initial_readings = VNone)
  /\ (force_spray_now (globals unit_system_no_dht) = false ->
      forall r,
        snd (handle_moisture_data_raw {[ "moisture" := VNum 35 ]} "12:00:00"
               initial_readings (globals unit_system_no_dht)) = Ok r ->
        r = mkResponse "STOP" 0)
  /\ (forall sev,
        conditions_met_raw initial_readings (globals unit_system_no_dht) sev
        <> Ok true)
  /\ spray_threads
       (fst (process_frames_iteration_raw sick_plant_binary sick_plant_severity
               sick_plant_format initial_readings unit_system_no_dht))
     = spray_threads unit_system_no_dht
  /\ (number_or_None (humidity_value initial_readings) = true ->
      (force_spray_now (globals unit_system_no_dht) = false ->
       posts_number {[ "moisture" := VNum 35 ]} = true ->
       snd (handle_moisture_data_raw {[ "moisture" := VNum 35 ]} "12:00:00"
              initial_readings (globals unit_system_no_dht))
       = Ok (mkResponse "STOP" 0))
      /\ (is_number (moisture_value initial_readings) = true ->
          (forall sev,
             conditions_met_raw initial_readings (globals unit_system_no_dht)
                                sev = Ok false)
          /\ snd (process_frames_iteration_raw sick_plant_binary
                    sick_plant_severity sick_plant_format initial_readings
                    unit_system_no_dht) = Ok tt)).
Proof.
  split; [left; reflexivity|].
  apply (missing_reading_never_allows sick_plant_binary sick_plant_severity
           sick_plant_format initial_readings unit_system_no_dht
           {[ "moisture" := VNum 35 ]} "12:00:00").
  left; reflexivity.
Defined.

Lemma completed_iteration_publishes_status_witness :
  raw_frame_queue unit_system_no_dht = [tt]
  /\ raw_frame_queue
       (fst (process_frames_iteration_raw sick_plant_binary sick_plant_severity
               sick_plant_format initial_readings unit_system_no_dht)) = []
  /\ latest_plant
       (globals
          (fst (process_frames_iteration_raw sick_plant_binary sick_plant_severity
               sick_plant_format initial_readings unit_system_no_dht)))
     = mkPlant
         (label_of
            (stabilize (classify sick_plant_binary sick_plant_severity
                                 sick_plant_format tt)
                       (stabilizer (globals unit_system_no_dht))))
         (smoothed_of
            (stabilize (classify sick_plant_binary sick_plant_severity
                                 sick_plant_format tt)
                       (stabilizer (globals unit_system_no_dht))))
  /\ (snd (process_frames_iteration_raw sick_plant_binary sick_plant_severity
               sick_plant_format initial_readings unit_system_no_dht) = Ok tt ->
      exists col,
        Channel.peek
          (processed_frame_queue
             (fst (process_frames_iteration_raw sick_plant_binary sick_plant_severity
               sick_plant_format initial_readings unit_system_no_dht)))
        = Some (status_plant
                  (get_status
                     (globals
                        (fst (process_frames_iteration_raw sick_plant_binary sick_plant_severity
               sick_plant_format initial_readings unit_system_no_dht)))),
                col,
                status_confidence
                  (get_status
                     (globals
                        (fst (process_frames_iteration_raw sick_plant_binary sick_plant_severity
               sick_plant_format initial_readings unit_system_no_dht)))),
                tt))
  /\ (forall e,
        snd (process_frames_iteration_raw sick_plant_binary sick_plant_severity
               sick_plant_format initial_readings unit_system_no_dht) = Raise e ->
        processed_frame_queue
          (fst (process_frames_iteration_raw sick_plant_binary sick_plant_severity
               sick_plant_format initial_readings unit_system_no_dht))
        = processed_frame_queue unit_system_no_dht).
Proof.
  assert (Hq : raw_frame_queue unit_system_no_dht = [tt]) by reflexivity.
  split; [exact Hq|].
  exact (completed_iteration_publishes_status sick_plant_binary
           sick_plant_severity sick_plant_format initial_readings
           unit_system_no_dht tt [] Hq).
Defined.

Lemma processing_loop_footprint_witness :
  force_spray_now
    (globals (fst (process_frames_iteration_raw sick_plant_binary
                     sick_plant_severity sick_plant_format initial_readings
                     unit_system_no_dht)))
  = force_spray_now (globals unit_system_no_dht)
  /\ motor
       (globals (fst (process_frames_iteration_raw sick_plant_binary
                        sick_plant_severity sick_plant_format initial_readings
                        unit_system_no_dht)))
     = motor (globals unit_system_no_dht)
  /\ command
       (globals (fst (process_frames_iteration_raw sick_plant_binary
                        sick_plant_severity sick_plant_format initial_readings
                        unit_system_no_dht)))
     = command (globals unit_system_no_dht)
  /\ activity_log
       (globals (fst (process_frames_iteration_raw sick_plant_binary
                        sick_plant_severity sick_plant_format initial_readings
                        unit_system_no_dht)))
     = activity_log (globals unit_system_no_dht)
  /\ snd (process_frames_iteration_raw sick_plant_binary sick_plant_severity
            sick_plant_format initial_readings
            (with_globals (set_force_spray_now true (globals unit_system_no_dht))
                          unit_system_no_dht))
     = snd (process_frames_iteration_raw sick_plant_binary sick_plant_severity
              sick_plant_format initial_readings unit_system_no_dht)
  /\ spray_threads
       (fst (process_frames_iteration_raw sick_plant_binary sick_plant_severity
               sick_plant_format initial_readings
               (with_globals
                  (set_force_spray_now true (globals unit_system_no_dht))
                  unit_system_no_dht)))
     = spray_threads
         (fst (process_frames_iteration_raw sick_plant_binary
                 sick_plant_severity sick_plant_format initial_readings
                 unit_system_no_dht))
  /\ latest_plant
       (globals
          (fst (process_frames_iteration_raw sick_plant_binary
                  sick_plant_severity sick_plant_format initial_readings
                  (with_globals
                     (set_force_spray_now true (globals unit_system_no_dht))
                     unit_system_no_dht))))
     = latest_plant
         (globals
            (fst (process_frames_iteration_raw sick_plant_binary
                    sick_plant_severity sick_plant_format initial_readings
                    unit_system_no_dht)))
  /\ (is_number (moisture_value initial_readings) = true ->
      number_or_None (humidity_value initial_readings) = true ->
      number_or_None (temperature_value initial_readings) = true ->
      snd (process_frames_iteration_raw sick_plant_binary sick_plant_severity
             sick_plant_format initial_readings unit_system_no_dht) = Ok tt).
Proof.
  exact (processing_loop_footprint sick_plant_binary sick_plant_severity
           sick_plant_format initial_readings unit_system_no_dht true).
Defined.

(** ** Incomplete posts to [/dht22] *)

(** X9: a POST to [/dht22] whose body lacks the temperature or the
    humidity, or gives [null] for it, stores [None] for that reading and
    leaves the moisture as it was.  From then on the gate does not allow:
    the gate of the processing loop never evaluates to true and, with the
    force flag clear, [/process] gives no answer other than STOP with
    duration 0.  No exception is raised when the readings have the types of
    the data model: if the humidity posted is a number or missing,
    [/process] with a numeric moisture answers STOP, and the gate of the
    loop evaluates to false when the stored moisture is a number. *)
Theorem incomplete_dht22_post_never_allows (dht data : gmap string Value)
    ts rd g :
  default VNone (dht !! "temperature") = VNone
  \/ default VNone (dht !! "humidity") = VNone ->
  moisture_value (handle_dht22_data_raw dht rd) = moisture_value rd
  /\ (forall sev,
        conditions_met_raw (handle_dht22_data_raw dht rd) g sev <> Ok true)
  /\ (force_spray_now g = false ->
      forall r,
        snd (handle_moisture_data_raw data ts (handle_dht22_data_raw dht rd) g)
        = Ok r ->
        r = mkResponse "STOP" 0)
  /\ (number_or_None (default VNone (dht !! "humidity")) = true ->
      (force_spray_now g = false -> posts_number data = true ->
       snd (handle_moisture_data_raw data ts (handle_dht22_data_raw dht rd) g)
       = Ok (mkResponse "STOP" 0))
      /\ (is_number (moisture_value rd) = true ->
          forall sev,
            conditions_met_raw (handle_dht22_data_raw dht rd) g sev
            = Ok false)).
Proof.
  intros Hmissing.
  assert (Hrd : humidity_value (handle_dht22_data_raw dht rd) = VNone
                \/ temperature_value (handle_dht22_data_raw dht rd) = VNone).
  { unfold handle_dht22_data_raw. cbn. tauto. }
  split; [reflexivity|]. split; [|split; [|split]].
  - intros sev. apply (conditions_met_raw_closed _ g sev Hrd).
  - intros Hforce. apply (handle_moisture_data_raw_closed data ts _ g Hrd Hforce).
  - intros Hforce Hposts.
    apply (handle_moisture_data_raw_closed data ts _ g Hrd Hforce);
      [exact Hposts|exact H].
  - intros Hm sev.
    apply (conditions_met_raw_closed _ g sev Hrd); [exact Hm|exact H].
Qed.

Lemma incomplete_dht22_post_never_allows_witness :
  (default VNone (({[ "temperature" := VNum 22 ]} : gmap string Value)
                    !! "temperature") = VNone
   \/ default VNone (({[ "temperature" := VNum 22 ]} : gmap string Value)
                       !! "humidity") = VNone)
  /\ moisture_value
       (handle_dht22_data_raw {[ "temperature" := VNum 22 ]} initial_readings)
     = moisture_value initial_readings
  /\ (forall sev,
        conditions_met_raw
          (handle_dht22_data_raw {[ "temperature" := VNum 22 ]} initial_readings)
          (globals unit_system_no_dht) sev <> Ok true)
  /\ (force_spray_now (globals unit_system_no_dht) = false ->
      forall r,
        snd (handle_moisture_data_raw {[ "moisture" := VNum 35 ]} "12:00:00"
               (handle_dht22_data_raw {[ "temperature" := VNum 22 ]}
                                      initial_readings)
               (globals unit_system_no_dht))
        = Ok r ->
        r = mkResponse "STOP" 0)
  /\ (number_or_None
        (default VNone (({[ "temperature" := VNum 22 ]} : gmap string Value)
                          !! "humidity")) = true ->
      (force_spray_now (globals unit_system_no_dht) = false ->
       posts_number {[ "moisture" := VNum 35 ]} = true ->
       snd (handle_moisture_data_raw {[ "moisture" := VNum 35 ]} "12:00:00"
              (handle_dht22_data_raw {[ "temperature" := VNum 22 ]}
                                     initial_readings)
              (globals unit_system_no_dht))
       = Ok (mkResponse "STOP" 0))
      /\ (is_number (moisture_value initial_readings) = true ->
          forall sev,
            conditions_met_raw
              (handle_dht22_data_raw {[ "temperature" := VNum 22 ]}
                                     initial_readings)
              (globals unit_system_no_dht) sev
            = Ok false)).
Proof.
  assert (Hmissing :
            default VNone (({[ "temperature" := VNum 22 ]} : gmap string Value)
                             !! "temperature") = VNone
            \/ default VNone (({[ "temperature" := VNum 22 ]} : gmap string Value)
                                !! "humidity") = VNone)
    by (right; vm_compute; reflexivity).
  split; [exact Hmissing|].
  exact (incomplete_dht22_post_never_allows {[ "temperature" := VNum 22 ]}
           {[ "moisture" := VNum 35 ]} "12:00:00" initial_readings
           (globals unit_system_no_dht) Hmissing).
Defined.
